(** * LLm-Linter: the scanning, analysis and reporting pipeline

    A shallow embedding of [config.py], [analyzer.py], [gemini_client.py]
    and [main.py], followed by the properties of the pipeline.

    Layout: Python values (strings, exceptions, paths), the outside world
    (file system, remote service, clock) as oracles, a state-and-exception
    monad for the methods, the four modules, then lemmas and theorems. *)

From stdpp Require Import gmap list strings pretty sorting.
From Stdlib Require Import Ascii NArith ZArith Lia.
Local Open Scope N_scope.

(** ** Python strings

    A Python [str] is a sequence of Unicode code points. *)

Definition pystr := list N.

(** String literals of the source are written as Rocq strings (UTF-8 bytes)
    and decoded to code points. *)
Fixpoint utf8_decode (bs : list N) : pystr :=
  match bs with
  | [] => []
  | b :: r =>
    if b <? 128 then b :: utf8_decode r
    else if b <? 224 then
      match r with
      | c1 :: r1 => ((b mod 32) * 64 + c1 mod 64) :: utf8_decode r1
      | _ => []
      end
    else if b <? 240 then
      match r with
      | c1 :: c2 :: r2 =>
        ((b mod 16) * 4096 + (c1 mod 64) * 64 + c2 mod 64) :: utf8_decode r2
      | _ => []
      end
    else
      match r with
      | c1 :: c2 :: c3 :: r3 =>
        ((b mod 8) * 262144 + (c1 mod 64) * 4096 + (c2 mod 64) * 64 + c3 mod 64)
          :: utf8_decode r3
      | _ => []
      end
  end.

Definition py (s : string) : pystr :=
  utf8_decode (N_of_ascii <$> String.list_ascii_of_string s).

(** ["\n"] *)
Definition nl : pystr := [10].

(** [s * n] *)
Definition str_mul (s : pystr) (n : nat) : pystr := mjoin (replicate n s).

(** [sep.join(l)] *)
Fixpoint str_join (sep : pystr) (l : list pystr) : pystr :=
  match l with
  | [] => []
  | [x] => x
  | x :: rest => x ++ sep ++ str_join sep rest
  end.

(** [s.startswith(prefix)] *)
Fixpoint startswith (prefix s : pystr) : bool :=
  match prefix, s with
  | [], _ => true
  | _ :: _, [] => false
  | a :: p', b :: s' => (a =? b) && startswith p' s'
  end.

(** [needle in hay] *)
Fixpoint str_in (needle hay : pystr) : bool :=
  startswith needle hay ||
  match hay with
  | [] => false
  | _ :: hay' => str_in needle hay'
  end.

(** The code points [str.strip()] removes: those for which [str.isspace]
    holds. *)
Definition isspace (c : N) : bool :=
  ((9 <=? c) && (c <=? 13)) || ((28 <=? c) && (c <=? 32))
  || (c =? 133) || (c =? 160) || (c =? 5760)
  || ((8192 <=? c) && (c <=? 8202))
  || (c =? 8232) || (c =? 8233) || (c =? 8239) || (c =? 8287) || (c =? 12288).

Fixpoint lstrip (s : pystr) : pystr :=
  match s with
  | [] => []
  | c :: s' => if isspace c then lstrip s' else s
  end.

Definition rstrip (s : pystr) : pystr := rev (lstrip (rev s)).

Definition strip (s : pystr) : pystr := rstrip (lstrip s).

(** A string that is empty or made of white space only. *)
Definition blank (s : pystr) : Prop := Forall (fun c => isspace c = true) s.

(** [len(s.encode('utf-8'))]: the number of bytes of the UTF-8 encoding. *)
Definition utf8_width (c : N) : N :=
  if c <? 128 then 1 else if c <? 2048 then 2 else if c <? 65536 then 3 else 4.

Definition utf8_len (s : pystr) : N :=
  foldr (fun c acc => utf8_width c + acc) 0 s.

(** [str(n)] for a non-negative integer. *)
Definition str_of_N (n : N) : pystr := py (pretty n).

(** [s.rfind(c)], [None] standing for [-1]. *)
Fixpoint rfind (c : N) (s : pystr) : option nat :=
  match s with
  | [] => None
  | x :: r =>
    match rfind c r with
    | Some i => Some (S i)
    | None => if x =? c then Some 0%nat else None
    end
  end.

(** [s.split(c)] for a one-character separator. *)
Fixpoint str_split (c : N) (s : pystr) : list pystr :=
  match s with
  | [] => [[]]
  | x :: r =>
    if x =? c then [] :: str_split c r
    else match str_split c r with
         | h :: t => (x :: h) :: t
         | [] => [[x]]
         end
  end.

(** [str.lower] and [str.upper] follow the Unicode character database, which
    is not part of the program. They are taken as an interface; the two laws
    are the facts about [str.lower] the proofs use: on ASCII text it maps
    [A-Z] to [a-z] and nothing else, also inside a longer string. *)
Definition ascii_lower_char (c : N) : N :=
  if (65 <=? c) && (c <=? 90) then c + 32 else c.

Definition ascii_upper_char (c : N) : N :=
  if (97 <=? c) && (c <=? 122) then c - 32 else c.

Definition is_ascii (c : N) : Prop := c < 128.

Class Unicode := {
  str_lower : pystr -> pystr;
  str_upper : pystr -> pystr;
  str_lower_ascii : forall s,
    Forall is_ascii s -> str_lower s = ascii_lower_char <$> s;
  str_lower_infix : forall x s y,
    Forall is_ascii s ->
    exists x' y', str_lower (x ++ s ++ y) = x' ++ (ascii_lower_char <$> s) ++ y'
}.

(** The ASCII-only case mapping: it agrees with Python on every string all
    of whose cased characters are ASCII. *)
Definition ascii_lower (s : pystr) : pystr := ascii_lower_char <$> s.
Definition ascii_upper (s : pystr) : pystr := ascii_upper_char <$> s.

(** It implements the interface. *)
Lemma ascii_lower_infix (x s y : pystr) :
  Forall is_ascii s ->
  exists x' y',
    ascii_lower (x ++ s ++ y) = x' ++ (ascii_lower_char <$> s) ++ y'.
Proof.
  intros _. exists (ascii_lower x), (ascii_lower y).
  unfold ascii_lower. by rewrite !fmap_app.
Qed.

#[local] Instance ascii_unicode : Unicode := {|
  str_lower := ascii_lower;
  str_upper := ascii_upper;
  str_lower_ascii := fun s _ => eq_refl;
  str_lower_infix := ascii_lower_infix
|}.

(** ** Exceptions and results

    The exception classes the program raises, catches or lets through.
    [KeyboardInterrupt], [SystemExit] and [GeneratorExit] are the ones that
    are not an [Exception]: an [except Exception] clause lets them through,
    and the program has no clause for the last two. *)

Inductive exn_class :=
  | KeyboardInterrupt
  | SystemExit
  | GeneratorExit
  | PermissionError
  | UnicodeDecodeError
  | FileNotFoundError
  | ValueError
  | IndexError
  | OtherException.

(** An exception object: its class and [str(e)]. *)
Record exn := Exn { exn_cls : exn_class; exn_str : pystr }.

(** [isinstance(e, Exception)] *)
Definition is_Exception (e : exn) : bool :=
  match exn_cls e with
  | KeyboardInterrupt | SystemExit | GeneratorExit => false
  | _ => true
  end.

(** [isinstance(e, (PermissionError, UnicodeDecodeError))] *)
Definition is_read_error (e : exn) : bool :=
  match exn_cls e with
  | PermissionError | UnicodeDecodeError => true
  | _ => false
  end.

(** [isinstance(e, KeyboardInterrupt)] *)
Definition is_KeyboardInterrupt (e : exn) : bool :=
  match exn_cls e with
  | KeyboardInterrupt => true
  | _ => false
  end.

Inductive result (A : Type) :=
  | Ok (a : A)
  | Raise (e : exn).
Arguments Ok {A} a.
Arguments Raise {A} e.

(** ** Paths ([pathlib.Path] on POSIX)

    A path is its anchor (["/"] or none) and its components. *)

Record Path := mkPath { absolute : bool; parts : list pystr }.

#[export] Instance Path_eq_dec : EqDecision Path.
Proof. solve_decision. Defined.

(** [Path(s)]: empty and ["."] components are dropped. *)
Definition Path_of_str (s : pystr) : Path :=
  {| absolute := startswith (py "/") s;
     parts := filter (fun p => p <> [] /\ p <> py ".") (str_split 47 s) |}.

(** [str(p)] *)
Definition Path_str (p : Path) : pystr :=
  match absolute p, parts p with
  | false, [] => py "."
  | false, ps => str_join (py "/") ps
  | true, ps => py "/" ++ str_join (py "/") ps
  end.

(** [p / name], for the name of a directory entry. *)
Definition Path_div (p : Path) (name : pystr) : Path :=
  {| absolute := absolute p; parts := parts p ++ [name] |}.

(** [p.name] *)
Definition Path_name (p : Path) : pystr := List.last (parts p) [].

(** [p.suffix]: from the last dot of the name on, when that dot is neither
    the first nor the last character of the name. *)
Definition Path_suffix (p : Path) : pystr :=
  let name := Path_name p in
  match rfind 46 name with
  | Some i =>
    if bool_decide (0 < i < length name - 1)%nat then drop i name else []
  | None => []
  end.

(** [p.relative_to(p.parents[-1])]: [p.parents[-1]] is the anchor of an
    absolute path and ["."] for a relative one, so the result has the
    components of [p] and no anchor. A path without components has no
    parents and the indexing raises [IndexError]. *)
Definition Path_relative_to_last_parent (p : Path) : result Path :=
  match parts p with
  | [] => Raise (Exn IndexError (py "-1"))
  | ps => Ok {| absolute := false; parts := ps |}
  end.

(** ** The outside world

    A directory as [os.walk] sees it: entries in listing order, each a file
    or a directory. A directory that cannot be listed, or a symbolic link to
    a directory (listed, not entered), behaves as an empty [Dir]. *)
#[warnings="-register-all"]
Inductive node :=
  | File
  | Dir (entries : list (pystr * node)).

Definition is_Dir (n : node) : bool :=
  match n with
  | Dir _ => true
  | File => false
  end.

Record datetime := {
  year : N; month : N; day : N; hour : N; minute : N; second : N
}.

(** What the program asks of its environment. *)
Record World := {
  (** the tree at a path: [None] when nothing exists there *)
  path_stat : Path -> option node;
  (** [open(p, 'r', encoding='utf-8').read()] *)
  open_read : Path -> result pystr;
  (** [client.models.generate_content(model=.., contents=[..])]: the
      [text] of the response ([None] when it has none), or what it raises *)
  generate_content : pystr -> pystr -> result (option pystr);
  (** [Path.mkdir(exist_ok=True)] *)
  path_mkdir : Path -> result ();
  (** the two [datetime.now()] calls of the report writer, in order *)
  now_filename : datetime;
  now_generated : datetime;
  (** [open(p, 'w', encoding='utf-8')] followed by [f.write(content)] *)
  open_write : Path -> pystr -> result ()
}.

(** What the program does to its environment, in order. *)
Inductive event :=
  | Print (text : pystr)
  | Request (model : pystr) (contents : pystr)
  | Mkdir (p : Path)
  | WriteFile (p : Path) (content : pystr).

(** ** State and the method monad *)

(** The attributes of a [CodeAnalyzer] instance. *)
Record CodeAnalyzer := {
  files_analyzed : N;
  total_size : N
}.

Record state := {
  analyzer : CodeAnalyzer;
  log : list event
}.

(** A method body: it runs from a state and returns or raises, leaving a
    state either way. *)
Definition M (A : Type) : Type := state -> result A * state.

#[export] Instance M_ret : MRet M := fun A (a : A) st => (Ok a, st).

#[export] Instance M_bind : MBind M := fun A B (k : A -> M B) (m : M A) st =>
  match m st with
  | (Ok a, st') => k a st'
  | (Raise e, st') => (Raise e, st')
  end.

Definition raise {A} (e : exn) : M A := fun st => (Raise e, st).

(** [try: body  except <catches> as e: handler e] *)
Definition try_except {A} (body : M A) (catches : exn -> bool)
    (handler : exn -> M A) : M A :=
  fun st =>
    match body st with
    | (Raise e, st') => if catches e then handler e st' else (Raise e, st')
    | r => r
    end.

Definition lift {A} (r : result A) : M A := fun st => (r, st).

Definition emit (ev : event) : M () :=
  fun st => (Ok (), {| analyzer := analyzer st; log := log st ++ [ev] |}).

(** [print(s)] *)
Definition print (s : pystr) : M () := emit (Print s).

Definition get_analyzer : M CodeAnalyzer := fun st => (Ok (analyzer st), st).

Definition set_analyzer (a : CodeAnalyzer) : M () :=
  fun st => (Ok (), {| analyzer := a; log := log st |}).

(** [a <= b] on strings: code point by code point. *)
Fixpoint str_leb (a b : pystr) : bool :=
  match a, b with
  | [], _ => true
  | _ :: _, [] => false
  | x :: a', y :: b' => (x <? y) || ((x =? y) && str_leb a' b')
  end.

(** [sorted(l)] for a collection of strings. *)
Definition sorted (l : list pystr) : list pystr :=
  merge_sort (fun a b => Is_true (str_leb a b)) l.

(** ** config.py *)

Module config.

Record Config := { gemini_api_key : pystr }.

(** [Config._get_gemini_api_key], from the value of
    [os.getenv('GEMINI_API_KEY')] ([None] when the variable is unset). *)
Definition _get_gemini_api_key (getenv : option pystr) : result pystr :=
  match getenv with
  | None | Some [] =>
    Raise (Exn ValueError
      (py "GEMINI_API_KEY not found in environment variables. "
       ++ py "Please create a .env file in the project root with your "
       ++ py "Gemini API key from Google AI Studio."))
  | Some api_key => Ok (strip api_key)
  end.

(** [Config.__init__] *)
Definition Config_init (getenv : option pystr) : result Config :=
  match _get_gemini_api_key getenv with
  | Ok k => Ok {| gemini_api_key := k |}
  | Raise e => Raise e
  end.

(** The [api_key] property. *)
Definition api_key (c : Config) : pystr := gemini_api_key c.

End config.

(** ** analyzer.py *)

Module analyzer.

Definition SUPPORTED_EXTENSIONS : gset pystr :=
  list_to_set
    [ py ".py"; py ".js"; py ".ts"; py ".jsx"; py ".tsx"; py ".go"; py ".java";
      py ".cs"; py ".cpp"; py ".c"; py ".rb"; py ".rs"; py ".php"; py ".kt";
      py ".swift"; py ".scala" ].

Definition IGNORED_DIRECTORIES : gset pystr :=
  list_to_set
    [ py "__pycache__"; py ".venv"; py "venv"; py ".env"; py ".git";
      py "node_modules"; py ".next"; py "dist"; py "build"; py "target";
      py ".gradle"; py ".idea"; py ".vscode"; py ".pytest_cache";
      py ".mypy_cache"; py ".tox"; py "htmlcov"; py ".coverage";
      py ".DS_Store" ].

Definition language_map : gmap pystr pystr :=
  list_to_map
    [ (py ".py", py "Python"); (py ".js", py "JavaScript");
      (py ".jsx", py "React JavaScript"); (py ".ts", py "TypeScript");
      (py ".tsx", py "React TypeScript"); (py ".go", py "Go");
      (py ".java", py "Java"); (py ".cs", py "C#"); (py ".cpp", py "C++");
      (py ".c", py "C"); (py ".rb", py "Ruby"); (py ".rs", py "Rust");
      (py ".php", py "PHP"); (py ".kt", py "Kotlin");
      (py ".swift", py "Swift"); (py ".scala", py "Scala") ].

(** [f"{num / den:.1f}"]: the quotient to one decimal, ties to even. The
    float quotient is exact for a power of two [den] and [num] below 2^53. *)
Definition format_1f (num den : N) : pystr :=
  let q := (10 * num) / den in
  let r := (10 * num) mod den in
  let q' :=
    if 2 * r <? den then q
    else if den <? 2 * r then q + 1
    else if N.even q then q else q + 1 in
  str_of_N (q' / 10) ++ py "." ++ str_of_N (q' mod 10).

(** [CodeAnalyzer._format_file_size] *)
Definition _format_file_size (size_bytes : N) : pystr :=
  if size_bytes <? 1024 then str_of_N size_bytes ++ py " bytes"
  else if size_bytes <? 1024 * 1024 then format_1f size_bytes 1024 ++ py " KB"
  else format_1f size_bytes (1024 * 1024) ++ py " MB".

(** [CodeAnalyzer.__init__] *)
Definition CodeAnalyzer_init : CodeAnalyzer :=
  {| files_analyzed := 0; total_size := 0 |}.

Section with_world.
Context `{Unicode} (w : World).

(** [CodeAnalyzer._get_language_from_extension] *)
Definition _get_language_from_extension (extension : pystr) : pystr :=
  default (py "Unknown") (language_map !! str_lower extension).

(** The test of the inner loop of [_find_source_files]. *)
Definition is_source_file (file_path : Path) : bool :=
  bool_decide (str_lower (Path_suffix file_path) ∈ SUPPORTED_EXTENSIONS).

(** The [files] of one [os.walk] step. *)
Definition scandir_files (entries : list (pystr * node)) : list pystr :=
  fst <$> filter (fun e => is_Dir e.2 = false) entries.

(** The loop of [_find_source_files] over [os.walk(root)], top-down: the
    files of [root] in listing order, then each listed directory that the
    assignment to [dirs[:]] keeps, in listing order. *)
Fixpoint walk (root : Path) (n : node) : list Path :=
  match n with
  | File => []
  | Dir entries =>
    filter (fun p => is_source_file p = true)
           (Path_div root <$> scandir_files entries)
    ++ (fix subdirs (es : list (pystr * node)) : list Path :=
          match es with
          | [] => []
          | (d, child) :: es' =>
            (if is_Dir child && bool_decide (d ∉ IGNORED_DIRECTORIES)
             then walk (Path_div root d) child else [])
            ++ subdirs es'
          end) entries
  end.

(** [CodeAnalyzer._find_source_files] *)
Definition _find_source_files (directory : Path) : list Path :=
  match path_stat w directory with
  | Some n => walk directory n
  | None => []
  end.

(** [CodeAnalyzer._read_file_content]; its [except ...: raise] re-raises
    what it catches. *)
Definition _read_file_content (file_path : Path) : M pystr :=
  content ← lift (open_read w file_path);
  if 1024 * 1024 <? utf8_len content then
    print (py "⚠️  Skipping large file: " ++ Path_str file_path
           ++ py " (>1MB)");;
    mret []
  else mret content.

(** One iteration of the loop of [_aggregate_file_contents]: the new value
    of [aggregated_parts]. *)
Definition aggregate_step (aggregated_parts : list pystr) (file_path : Path)
    : M (list pystr) :=
  try_except
    (content ← _read_file_content file_path;
     if bool_decide (content <> []) then
       relative_path ← lift (Path_relative_to_last_parent file_path);
       let file_header := nl ++ str_mul (py "=") 80 ++ nl in
       let file_header :=
         file_header ++ py "FILE: " ++ Path_str relative_path ++ nl in
       let file_header :=
         file_header ++ py "LANGUAGE: "
         ++ _get_language_from_extension (Path_suffix file_path) ++ nl in
       let file_header := file_header ++ str_mul (py "=") 80 ++ nl ++ nl in
       let aggregated_parts := aggregated_parts ++ [file_header ++ content] in
       self ← get_analyzer;
       set_analyzer {| files_analyzed := files_analyzed self + 1;
                       total_size := total_size self |};;
       self ← get_analyzer;
       set_analyzer {| files_analyzed := files_analyzed self;
                       total_size := total_size self + utf8_len content |};;
       mret aggregated_parts
     else mret aggregated_parts)
    is_read_error
    (fun e =>
       print (py "⚠️  Skipping " ++ Path_str file_path ++ py ": "
              ++ exn_str e);;
       mret aggregated_parts).

Fixpoint aggregate_loop (aggregated_parts : list pystr)
    (file_paths : list Path) : M (list pystr) :=
  match file_paths with
  | [] => mret aggregated_parts
  | file_path :: rest =>
    aggregated_parts ← aggregate_step aggregated_parts file_path;
    aggregate_loop aggregated_parts rest
  end.

(** [CodeAnalyzer._aggregate_file_contents] *)
Definition _aggregate_file_contents (file_paths : list Path) : M pystr :=
  aggregated_parts ← aggregate_loop [] file_paths;
  mret (str_join nl aggregated_parts).

(** [CodeAnalyzer.analyze_codebase] *)
Definition analyze_codebase (directory_path : pystr) : M pystr :=
  let directory := Path_of_str directory_path in
  match path_stat w directory with
  | None =>
    raise (Exn FileNotFoundError
      (py "Directory '" ++ directory_path ++ py "' does not exist"))
  | Some File =>
    raise (Exn ValueError (py "'" ++ directory_path ++ py "' is not a directory"))
  | Some (Dir _) =>
    print (py "🔍 Scanning directory: " ++ directory_path);;
    print (py "📁 Supported file types: "
           ++ str_join (py ", ") (sorted (elements SUPPORTED_EXTENSIONS)));;
    let source_files := _find_source_files directory in
    match source_files with
    | [] =>
      print (py "⚠️  No source files found in the specified directory");;
      mret []
    | _ =>
      print (py "📄 Found " ++ str_of_N (N.of_nat (length source_files))
             ++ py " source files");;
      aggregated_content ← _aggregate_file_contents source_files;
      print (py "✅ Codebase analysis complete!");;
      self ← get_analyzer;
      print (py "   Files analyzed: " ++ str_of_N (files_analyzed self));;
      print (py "   Total size: " ++ _format_file_size (total_size self));;
      mret aggregated_content
    end
  end.

End with_world.

End analyzer.

(** ** gemini_client.py *)

Module gemini_client.

(** [GeminiClient.system_instruction]; with the temperature it makes up the
    fixed [generation_config] sent along with every analysis request. *)
Definition system_instruction : pystr :=
  py "You are an expert code reviewer and linter. Analyze the following multi-language codebase provided below. Identify high-level, cross-file patterns, potential areas for refactoring, and inconsistencies in coding style or logic. Do not suggest trivial fixes. Focus on architectural improvements or repeated code that could be abstracted. Provide 3-5 actionable suggestions. For each suggestion, specify the relevant file(s) and provide a clear explanation of the issue and your proposed improvement.".

Section with_world.
Context `{Unicode} (w : World).

(** [self.client.models.generate_content(model=.., contents=[..])]: the
    request is logged, then the service answers or the call raises. *)
Definition call_generate_content (model contents : pystr)
    : M (option pystr) :=
  emit (Request model contents);;
  lift (generate_content w model contents).

(** [GeminiClient._build_analysis_prompt] *)
Definition _build_analysis_prompt (code_context : pystr) : pystr :=
  py "Codebase: " ++ code_context.

(** [GeminiClient._format_response] *)
Definition _format_response (response_text : pystr) : pystr :=
  let formatted_response := nl ++ str_mul (py "=") 80 ++ nl in
  let formatted_response :=
    formatted_response ++ py "🎯 CODE ANALYSIS RESULTS" ++ nl in
  let formatted_response :=
    formatted_response ++ str_mul (py "=") 80 ++ nl ++ nl in
  let formatted_response := formatted_response ++ strip response_text in
  let formatted_response :=
    formatted_response ++ nl ++ nl ++ str_mul (py "=") 80 ++ nl in
  let formatted_response :=
    formatted_response ++ py "✨ Analysis powered by Google Gemini AI" ++ nl in
  let formatted_response := formatted_response ++ str_mul (py "=") 80 ++ nl in
  formatted_response.

(** The [test_prompt] of [validate_api_key]. *)
Definition test_prompt : pystr :=
  py "Hello, can you respond with 'API key is working' if you receive this message?".

Definition no_content_message : pystr :=
  py "❌ No code content provided for analysis.".

Definition no_response_message : pystr :=
  py "❌ No response received from Gemini API.".

Definition api_key_hint : pystr :=
  nl ++ py "💡 Make sure your GEMINI_API_KEY is set correctly in the .env file.".

Definition quota_hint : pystr :=
  nl ++ py "💡 You may have exceeded your API quota. Check your Google AI Studio dashboard.".

Definition network_hint : pystr :=
  nl ++ py "💡 Check your internet connection and try again.".

(** The [except Exception as e] handler of [get_suggestions], after the
    message was printed: the message with the first hint that applies. *)
Definition error_message (e : exn) : pystr :=
  let error_msg := py "❌ Error communicating with Gemini API: " ++ exn_str e in
  if str_in (py "API_KEY") (str_upper (exn_str e)) then error_msg ++ api_key_hint
  else if str_in (py "quota") (str_lower (exn_str e)) then error_msg ++ quota_hint
  else if str_in (py "network") (str_lower (exn_str e)) then
    error_msg ++ network_hint
  else error_msg.

(** [GeminiClient.get_suggestions] *)
Definition get_suggestions (code_context : pystr) : M pystr :=
  if bool_decide (strip code_context = []) then mret no_content_message
  else
    try_except
      (print (py "🤖 Analyzing codebase with Gemini AI...");;
       print (py "⏳ This may take a moment depending on codebase size...");;
       let prompt := _build_analysis_prompt code_context in
       response ← call_generate_content (py "gemini-2.5-pro") prompt;
       match response with
       | Some (c :: text) =>
         print (py "✅ Analysis complete!");;
         mret (_format_response (c :: text))
       | _ => mret no_response_message
       end)
      is_Exception
      (fun e =>
         print (py "❌ Error communicating with Gemini API: " ++ exn_str e);;
         mret (error_message e)).

(** [GeminiClient.validate_api_key] *)
Definition validate_api_key : M bool :=
  try_except
    (response ← call_generate_content (py "gemini-2.5-flash") test_prompt;
     match response with
     | Some (_ :: _) => mret true
     | _ => mret false
     end)
    is_Exception
    (fun _ => mret false).

End with_world.

End gemini_client.

(** ** main.py *)

Module main.

Definition header : pystr :=
  py "
╔══════════════════════════════════════════════════════════════════════════════╗
║                           🤖 CODING ASSISTANT                             ║
║                      AI-Powered Code Analysis Tool                         ║
║                                                                            ║
║  Analyze your codebase for patterns, improvements, and refactoring         ║
║  opportunities using Google's Gemini AI                                    ║
╚══════════════════════════════════════════════════════════════════════════════╝
".

(** [s.zfill(width)] *)
Definition zfill (width : nat) (s : pystr) : pystr :=
  replicate (width - length s) 48 ++ s.

(** [d.strftime("%Y%m%d_%H%M%S")] *)
Definition strftime_compact (d : datetime) : pystr :=
  zfill 4 (str_of_N (year d)) ++ zfill 2 (str_of_N (month d))
  ++ zfill 2 (str_of_N (day d)) ++ py "_" ++ zfill 2 (str_of_N (hour d))
  ++ zfill 2 (str_of_N (minute d)) ++ zfill 2 (str_of_N (second d)).

(** [d.strftime('%Y-%m-%d %H:%M:%S')] *)
Definition strftime_iso (d : datetime) : pystr :=
  zfill 4 (str_of_N (year d)) ++ py "-" ++ zfill 2 (str_of_N (month d))
  ++ py "-" ++ zfill 2 (str_of_N (day d)) ++ py " "
  ++ zfill 2 (str_of_N (hour d)) ++ py ":" ++ zfill 2 (str_of_N (minute d))
  ++ py ":" ++ zfill 2 (str_of_N (second d)).

(** The indentation of the continuation lines of the report template. *)
Definition indent : pystr := str_mul (py " ") 24.

(** The [content] of the report file. *)
Definition report_content (generated directory_path suggestions : pystr)
    : pystr :=
  py "Coding Assistant Analysis Report" ++ nl
  ++ indent ++ str_mul (py "=") 50 ++ nl
  ++ indent ++ py "Generated: " ++ generated ++ nl
  ++ indent ++ py "Analyzed Directory: " ++ directory_path ++ nl
  ++ indent ++ str_mul (py "=") 50 ++ nl
  ++ nl
  ++ indent ++ suggestions ++ nl
  ++ nl
  ++ indent ++ str_mul (py "=") 50 ++ nl
  ++ indent ++ py "End of Analysis Report" ++ nl
  ++ indent.

Section with_world.
Context `{Unicode} (w : World).

(** [CodingAssistant._print_header] *)
Definition _print_header : M () := print header.

(** [CodingAssistant._validate_environment]. Reading [config.api_key] only
    returns the attribute set when the module was imported, so the
    [except ValueError] clause is never entered. *)
Definition _validate_environment : M bool :=
  print (py "🔧 Validating environment...");;
  print (py "API key found");;
  print (py "Testing API connection...");;
  valid ← gemini_client.validate_api_key w;
  if valid : bool then
    print (py "API connection successful");;
    mret true
  else
    print (py "API connection failed. Please check your API key.");;
    mret false.

(** [CodingAssistant._save_suggestions_to_file]. A [Mkdir] or [WriteFile]
    event records a call that succeeded. *)
Definition _save_suggestions_to_file (suggestions directory_path : pystr)
    : M () :=
  try_except
    (let output_dir := Path_of_str (py "analysis_output") in
     lift (path_mkdir w output_dir);;
     emit (Mkdir output_dir);;
     let timestamp := strftime_compact (now_filename w) in
     let filename := py "analysis_" ++ timestamp ++ py ".txt" in
     let filepath := Path_div output_dir filename in
     let content :=
       report_content (strftime_iso (now_generated w)) directory_path
                      suggestions in
     lift (open_write w filepath content);;
     emit (WriteFile filepath content);;
     print (nl ++ py "Analysis saved to: " ++ Path_str filepath))
    is_Exception
    (fun e =>
       print (py " Warning: Could not save analysis to file: " ++ exn_str e)).

(** [CodingAssistant.run]: one [try] with a [KeyboardInterrupt] clause and
    an [Exception] clause. *)
Definition run (directory_path : pystr) : M Z :=
  try_except
    (_print_header;;
     valid ← _validate_environment;
     if negb valid then mret 1%Z
     else
       print (nl ++ py "Target directory: " ++ directory_path);;
       code_context ← analyzer.analyze_codebase w directory_path;
       if bool_decide (code_context = []) then
         print (py "No analyzable code found. Please check the directory path.");;
         mret 1%Z
       else
         suggestions ← gemini_client.get_suggestions w code_context;
         print suggestions;;
         _save_suggestions_to_file suggestions directory_path;;
         mret 0%Z)
    (fun e => is_KeyboardInterrupt e || is_Exception e)
    (fun e =>
       if is_KeyboardInterrupt e then
         print (nl ++ nl ++ py "Analysis interrupted by user.");;
         mret 1%Z
       else
         print (nl ++ py "Unexpected error: " ++ exn_str e);;
         mret 1%Z).

End with_world.

End main.

(** ** The aggregate, as the specification words it

    A file is included when it reads as text that is not empty and is at
    most 1 MiB long once encoded. *)

Definition included (w : World) (file_path : Path) : bool :=
  match open_read w file_path with
  | Ok content =>
    bool_decide (content <> []) && (utf8_len content <=? 1024 * 1024)
  | Raise _ => false
  end.

Definition file_content (w : World) (file_path : Path) : pystr :=
  match open_read w file_path with
  | Ok content => content
  | Raise _ => []
  end.

(** The block of one file: the delimiter line, the path label (the
    components of the path joined by ["/"]), the language label, the
    delimiter line, a blank line, the content. *)
Definition block `{Unicode} (w : World) (file_path : Path) : pystr :=
  nl ++ str_mul (py "=") 80 ++ nl
  ++ py "FILE: " ++ str_join (py "/") (parts file_path) ++ nl
  ++ py "LANGUAGE: "
  ++ analyzer._get_language_from_extension (Path_suffix file_path) ++ nl
  ++ str_mul (py "=") 80 ++ nl ++ nl
  ++ file_content w file_path.

(** A file the loop gets past: it reads, or fails with one of the two
    errors the loop catches. *)
Definition readable (w : World) (file_path : Path) : Prop :=
  match open_read w file_path with
  | Ok _ => True
  | Raise e => is_read_error e = true
  end.

(** ** The loop of the aggregator, without the state

    What one iteration returns and what it does to the counters, as
    functions of the file alone; [aggregate_step_result] and
    [aggregate_step_counters] below show that the method body computes
    them. *)

Definition step_result `{Unicode} (w : World) (acc : list pystr)
    (file_path : Path) : result (list pystr) :=
  match open_read w file_path with
  | Ok _ =>
    if included w file_path then
      match parts file_path with
      | [] => Raise (Exn IndexError (py "-1"))
      | _ => Ok (acc ++ [block w file_path])
      end
    else Ok acc
  | Raise e => if is_read_error e then Ok acc else Raise e
  end.

Definition step_counters (w : World) (file_path : Path) (a : CodeAnalyzer)
    : CodeAnalyzer :=
  if included w file_path && bool_decide (parts file_path <> []) then
    {| files_analyzed := files_analyzed a + 1;
       total_size := total_size a + utf8_len (file_content w file_path) |}
  else a.

Fixpoint loop_result `{Unicode} (w : World) (acc : list pystr)
    (file_paths : list Path) : result (list pystr) :=
  match file_paths with
  | [] => Ok acc
  | file_path :: rest =>
    match step_result w acc file_path with
    | Ok acc' => loop_result w acc' rest
    | Raise e => Raise e
    end
  end.

Fixpoint loop_counters `{Unicode} (w : World) (acc : list pystr)
    (file_paths : list Path) (a : CodeAnalyzer) : CodeAnalyzer :=
  match file_paths with
  | [] => a
  | file_path :: rest =>
    match step_result w acc file_path with
    | Ok acc' => loop_counters w acc' rest (step_counters w file_path a)
    | Raise _ => step_counters w file_path a
    end
  end.

(** A path with at least one component, as every path of a file has. *)
Definition named (file_path : Path) : Prop := parts file_path <> [].

(** The text a scan returns, or the exception it raises, without the
    state; [analyze_codebase_result] shows that the method computes it. *)
Definition scan_result `{Unicode} (w : World) (directory_path : pystr)
    : result pystr :=
  match path_stat w (Path_of_str directory_path) with
  | None =>
    Raise (Exn FileNotFoundError
      (py "Directory '" ++ directory_path ++ py "' does not exist"))
  | Some File =>
    Raise (Exn ValueError
      (py "'" ++ directory_path ++ py "' is not a directory"))
  | Some (Dir entries) =>
    match loop_result w []
            (analyzer.walk (Path_of_str directory_path) (Dir entries)) with
    | Ok aggregated_parts => Ok (str_join nl aggregated_parts)
    | Raise e => Raise e
    end
  end.

(** The directories of [entries] that the walk enters, with what it finds
    in each: the inner loop of [walk], named. *)
Fixpoint walk_subdirs `{Unicode} (root : Path) (entries : list (pystr * node))
    : list Path :=
  match entries with
  | [] => []
  | (d, child) :: entries' =>
    (if is_Dir child && bool_decide (d ∉ analyzer.IGNORED_DIRECTORIES)
     then analyzer.walk (Path_div root d) child else [])
    ++ walk_subdirs root entries'
  end.

(** [p] lies below [root], and no directory on the way down from [root] to
    [p] is in the ignore set. *)
Definition below_unignored (root p : Path) : Prop :=
  absolute p = absolute root /\
  exists dirs name,
    parts p = parts root ++ dirs ++ [name] /\
    Forall (fun d => d ∉ analyzer.IGNORED_DIRECTORIES) dirs.

(** The path of the report file of a run: [output_dir / filename]. *)
Definition report_dir : Path := Path_of_str (py "analysis_output").

Definition report_path (w : World) : Path :=
  Path_div report_dir
    (py "analysis_" ++ main.strftime_compact (now_filename w) ++ py ".txt").

(** The report written for [suggestions]. *)
Definition report_of (w : World) (directory_path suggestions : pystr)
    : pystr :=
  main.report_content (main.strftime_iso (now_generated w)) directory_path
    suggestions.

(** The warning printed when the report cannot be saved. *)
Definition save_warning (e : exn) : pystr :=
  py " Warning: Could not save analysis to file: " ++ exn_str e.

(** The [WriteFile] events of a log. *)
Definition files_written (l : list event) : list (Path * pystr) :=
  omap (fun ev => match ev with
                  | WriteFile p content => Some (p, content)
                  | _ => None
                  end) l.

(** The [Request] events of a log. *)
Definition requests_made (l : list event) : list (pystr * pystr) :=
  omap (fun ev => match ev with
                  | Request model contents => Some (model, contents)
                  | _ => None
                  end) l.

(** ** Sample environments

    Concrete worlds on which the properties below are exercised. *)

Definition st0 : state :=
  {| analyzer := analyzer.CodeAnalyzer_init; log := [] |}.

Definition sample_time : datetime :=
  {| year := 2024; month := 5; day := 17; hour := 9; minute := 30; second := 2 |}.

(** One directory at [root] holding [entries]; every file reads as
    [read]; the service answers every request with [answer]; the report
    directory can be made and [write] is the outcome of writing. *)
Definition sample_world (root : Path) (entries : list (pystr * node))
    (read : Path -> result pystr) (answer : pystr -> result (option pystr))
    (write : result ()) : World :=
  {| path_stat := fun p =>
       if bool_decide (p = root) then Some (Dir entries) else None;
     open_read := read;
     generate_content := fun model _ => answer model;
     path_mkdir := fun _ => Ok ();
     now_filename := sample_time;
     now_generated := sample_time;
     open_write := fun _ _ => write |}.

Definition read_print1 (p : Path) : result pystr := Ok (py "print(1)").

Definition no_answer (model : pystr) : result (option pystr) := Ok None.

(** A directory [proj] holding [a.py]. *)
Definition world_proj : World :=
  sample_world (Path_of_str (py "proj")) [(py "a.py", File)] read_print1
    no_answer (Ok ()).

(** A directory [/srv/proj] holding [a.py], as [main] would pass it. *)
Definition world_abs : World :=
  sample_world (Path_of_str (py "/srv/proj")) [(py "a.py", File)] read_print1
    no_answer (Ok ()).

(** The current directory holding [a.py]. *)
Definition world_dot : World :=
  sample_world (Path_of_str (py ".")) [(py "a.py", File)] read_print1
    no_answer (Ok ()).

(** A directory named [build] holding [a.py]. *)
Definition world_build : World :=
  sample_world (Path_of_str (py "build")) [(py "a.py", File)] read_print1
    no_answer (Ok ()).

(** A service that accepts the credential check and fails the analysis
    with [message]. *)
Definition failing_analysis (message : pystr) (model : pystr)
    : result (option pystr) :=
  if bool_decide (model = py "gemini-2.5-flash")
  then Ok (Some (py "API key is working"))
  else Raise (Exn OtherException message).

(** [proj] holding [a.py]; the analysis fails on quota; the report can be
    written. *)
Definition world_quota : World :=
  sample_world (Path_of_str (py "proj")) [(py "a.py", File)] read_print1
    (failing_analysis (py "429 quota exceeded")) (Ok ()).

(** The same, with an error text that also names the API key. *)
Definition world_quota_and_key : World :=
  sample_world (Path_of_str (py "proj")) [(py "a.py", File)] read_print1
    (failing_analysis (py "API_KEY quota exceeded")) (Ok ()).

(** The same as [world_quota], but the report file cannot be written. *)
Definition world_readonly : World :=
  sample_world (Path_of_str (py "proj")) [(py "a.py", File)] read_print1
    (failing_analysis (py "429 quota exceeded"))
    (Raise (Exn PermissionError (py "[Errno 13] Permission denied"))).

(** The text of the scan of [proj] in these worlds. *)
Definition proj_context : pystr :=
  match (analyzer.analyze_codebase world_quota (py "proj") st0).1 with
  | Ok text => text
  | Raise _ => []
  end.

(** A file of 262145 four-byte characters: 4 bytes over 1 MiB. *)
Definition big_content : pystr := replicate (N.to_nat 262145) 128512.

Definition read_big (p : Path) : result pystr :=
  if bool_decide (Path_name p = py "big.py") then Ok big_content
  else Ok (py "print(1)").

(** [proj] holding [a.py], [big.py] and [b.py]. *)
Definition world_big : World :=
  sample_world (Path_of_str (py "proj"))
    [(py "a.py", File); (py "big.py", File); (py "b.py", File)] read_big
    no_answer (Ok ()).

(** [proj] holding [a.py] and a directory [node_modules] with [x.js]. *)
Definition world_modules : World :=
  sample_world (Path_of_str (py "proj"))
    [(py "a.py", File); (py "node_modules", Dir [(py "x.js", File)])]
    read_print1 no_answer (Ok ()).

(** ** Further specification-side definitions *)

(** [file_at n dirs name]: in the tree [n], going down the directories
    [dirs] leads to a directory that lists a file [name]. *)
Inductive file_at : node -> list pystr -> pystr -> Prop :=
  | file_here (entries : list (pystr * node)) (name : pystr) :
      (name, File) ∈ entries -> file_at (Dir entries) [] name
  | file_below (entries : list (pystr * node)) (d : pystr) (child : node)
      (dirs : list pystr) (name : pystr) :
      (d, child) ∈ entries -> file_at child dirs name ->
      file_at (Dir entries) (d :: dirs) name.

(** The included files of a list, and the bytes of their contents. *)
Definition included_files (w : World) (file_paths : list Path) : list Path :=
  List.filter (included w) file_paths.

Definition included_bytes (w : World) (file_paths : list Path) : N :=
  foldr (fun p acc => utf8_len (file_content w p) + acc) 0
    (included_files w file_paths).

(** The counters after [count] more files of [bytes] bytes in all. *)
Definition add_counters (a : CodeAnalyzer) (count bytes : N) : CodeAnalyzer :=
  {| files_analyzed := files_analyzed a + count;
     total_size := total_size a + bytes |}.

(** The two requests a run can make. *)
Definition validation_request : pystr * pystr :=
  (py "gemini-2.5-flash", gemini_client.test_prompt).

Definition analysis_request (code_context : pystr) : pystr * pystr :=
  (py "gemini-2.5-pro", gemini_client._build_analysis_prompt code_context).

(** [response and response.text] *)
Definition has_text (outcome : result (option pystr)) : bool :=
  match outcome with
  | Ok (Some (_ :: _)) => true
  | _ => false
  end.

(** The banner and the footer of [_format_response]. *)
Definition response_banner : pystr :=
  nl ++ str_mul (py "=") 80 ++ nl ++ py "🎯 CODE ANALYSIS RESULTS" ++ nl
  ++ str_mul (py "=") 80 ++ nl ++ nl.

Definition response_footer : pystr :=
  nl ++ nl ++ str_mul (py "=") 80 ++ nl
  ++ py "✨ Analysis powered by Google Gemini AI" ++ nl
  ++ str_mul (py "=") 80 ++ nl.

(** The first line of every error message of [get_suggestions]. *)
Definition error_line (e : exn) : pystr :=
  py "❌ Error communicating with Gemini API: " ++ exn_str e.

(** An exception that neither clause of [run] or of [main] catches: one
    that is neither a [KeyboardInterrupt] nor an [Exception], as
    [SystemExit] is. *)
Definition uncaught (e : exn) : bool :=
  negb (is_KeyboardInterrupt e || is_Exception e).

(** The messages [run] ends with when it returns 1. *)
Definition interrupted_message : pystr :=
  nl ++ nl ++ py "Analysis interrupted by user.".

Definition unexpected_error_message (e : exn) : pystr :=
  nl ++ py "Unexpected error: " ++ exn_str e.

Definition no_code_message : pystr :=
  py "No analyzable code found. Please check the directory path.".

(** What [run] prints when an exception reaches its handlers. *)
Definition handler_message (e : exn) : pystr :=
  if is_KeyboardInterrupt e then interrupted_message
  else unexpected_error_message e.

(** What [run] prints up to and including a failed credential check. *)
Definition failed_validation_log : list event :=
  [ Print main.header;
    Print (py "🔧 Validating environment...");
    Print (py "API key found");
    Print (py "Testing API connection...");
    Request (py "gemini-2.5-flash") gemini_client.test_prompt;
    Print (py "API connection failed. Please check your API key.") ].

(** The last events of a run that saved its report. *)
Definition saved_report_log (w : World) (directory_path suggestions : pystr)
    : list event :=
  [ Print suggestions;
    Mkdir report_dir;
    WriteFile (report_path w) (report_of w directory_path suggestions);
    Print (nl ++ py "Analysis saved to: " ++ Path_str (report_path w)) ].

(** ** main.py: the entry point *)

Module cli.

(** What [main] gets from the libraries it calls before the run:
    [parse_arguments()] returns [args.path], or raises [SystemExit] when
    [argparse] rejects the command line or meets [--help] or [--version];
    [Path(args.path).resolve()] returns the absolute path;
    [genai.Client(api_key=...)] builds the client inside [GeminiClient()].
    Each of them may raise. *)
Record Invocation := {
  parse_arguments : result pystr;
  path_resolve : pystr -> result Path;
  genai_Client : result ()
}.

Section with_world.
Context `{Unicode} (w : World) (inv : Invocation).

(** [CodingAssistant.__init__]: a fresh analyzer, then the client. *)
Definition CodingAssistant_init : M () :=
  set_analyzer analyzer.CodeAnalyzer_init;;
  lift (genai_Client inv).

(** [main]: one [try] with a [KeyboardInterrupt] clause and an
    [Exception] clause. *)
Definition main : M Z :=
  try_except
    (args_path ← lift (parse_arguments inv);
     directory_path ← lift (path_resolve inv args_path);
     match path_stat w directory_path with
     | None =>
       print (py "Error: Directory '" ++ args_path ++ py "' does not exist.");;
       print (py "Absolute path: " ++ Path_str directory_path);;
       mret 1%Z
     | Some File =>
       print (py "Error: '" ++ args_path ++ py "' is not a directory.");;
       mret 1%Z
     | Some (Dir _) =>
       CodingAssistant_init;;
       main.run w (Path_str directory_path)
     end)
    (fun e => is_KeyboardInterrupt e || is_Exception e)
    (fun e =>
       if is_KeyboardInterrupt e then
         print (nl ++ nl ++ py "Goodbye!");;
         mret 0%Z
       else
         print (py "Fatal error: " ++ exn_str e);;
         mret 1%Z).

End with_world.

End cli.

(** What happens before the run starts: the three calls in order, up to the
    first that raises. *)
Definition startup (w : World) (inv : cli.Invocation)
    : result (pystr * Path) :=
  match cli.parse_arguments inv with
  | Raise e => Raise e
  | Ok args_path =>
    match cli.path_resolve inv args_path with
    | Raise e => Raise e
    | Ok directory_path =>
      match path_stat w directory_path with
      | Some (Dir _) =>
        match cli.genai_Client inv with
        | Raise e => Raise e
        | Ok _ => Ok (args_path, directory_path)
        end
      | _ => Ok (args_path, directory_path)
      end
    end
  end.

(** A path as [Path.resolve] returns it: absolute, every component a
    proper name. *)
Definition component (c : pystr) : Prop :=
  c <> [] /\ c <> py "." /\ 47 ∉ c.

Definition resolved (p : Path) : Prop :=
  absolute p = true /\ Forall component (parts p).

(** ** Further sample environments *)

(** Reading [secret.py] is refused; [gone.py] has disappeared since the
    walk. *)
Definition read_guarded (p : Path) : result pystr :=
  if bool_decide (Path_name p = py "secret.py")
  then Raise (Exn PermissionError (py "[Errno 13] Permission denied"))
  else if bool_decide (Path_name p = py "gone.py")
       then Raise (Exn FileNotFoundError
                     (py "[Errno 2] No such file or directory"))
       else Ok (py "print(1)").

(** [proj] holding [a.py], [secret.py], [gone.py] and [b.py]. *)
Definition world_guarded : World :=
  sample_world (Path_of_str (py "proj"))
    [(py "a.py", File); (py "secret.py", File); (py "gone.py", File);
     (py "b.py", File)]
    read_guarded no_answer (Ok ()).

(** A service that accepts the credential check and answers the analysis
    with [text]. *)
Definition answering (text : pystr) (model : pystr)
    : result (option pystr) :=
  if bool_decide (model = py "gemini-2.5-flash")
  then Ok (Some (py "API key is working"))
  else Ok (Some text).

Definition sample_answer : pystr := py "  Looks fine. ".

(** [proj] holding [a.py]; the analysis is answered; the report can be
    written. *)
Definition world_answering : World :=
  sample_world (Path_of_str (py "proj")) [(py "a.py", File)] read_print1
    (answering sample_answer) (Ok ()).

(** A service that accepts the credential check; the analysis request is
    interrupted from the keyboard. *)
Definition interrupted_analysis (model : pystr) : result (option pystr) :=
  if bool_decide (model = py "gemini-2.5-flash")
  then Ok (Some (py "API key is working"))
  else Raise (Exn KeyboardInterrupt []).

Definition world_interrupted : World :=
  sample_world (Path_of_str (py "proj")) [(py "a.py", File)] read_print1
    interrupted_analysis (Ok ()).

(** A service whose first call ends the interpreter: every request raises
    [SystemExit]. *)
Definition exiting (model : pystr) : result (option pystr) :=
  Raise (Exn SystemExit (py "1")).

Definition world_exiting : World :=
  sample_world (Path_of_str (py "proj")) [(py "a.py", File)] read_print1
    exiting (Ok ()).

(** An empty directory [proj]. *)
Definition world_empty : World :=
  sample_world (Path_of_str (py "proj")) [] read_print1
    (answering sample_answer) (Ok ()).

(** A start from [/srv] with [--path args_path]; [client] is the outcome of
    building the client. *)
Definition sample_invocation (args_path : pystr) (client : result ())
    : cli.Invocation :=
  {| cli.parse_arguments := Ok args_path;
     cli.path_resolve := fun s =>
       Ok (if startswith (py "/") s then Path_of_str s
           else Path_of_str (py "/srv/" ++ s));
     cli.genai_Client := client |}.

(** A start without [--path]: [argparse] prints the usage and raises
    [SystemExit(2)]. *)
Definition invocation_without_path : cli.Invocation :=
  {| cli.parse_arguments := Raise (Exn SystemExit (py "2"));
     cli.path_resolve := fun s => Ok (Path_of_str s);
     cli.genai_Client := Ok () |}.

(** * Properties *)

(** ** Strings *)

Lemma startswith_spec (p s : pystr) :
  startswith p s = true <-> exists y, s = p ++ y.
Proof.
  revert s. induction p as [|a p IH]; intros s; simpl.
  - split; [intros _; by exists s | done].
  - destruct s as [|b s].
    + split; [done | intros [y Hy]; discriminate].
    + rewrite andb_true_iff, N.eqb_eq, IH. split.
      * intros [-> [y ->]]. by exists y.
      * intros [y Hy]. injection Hy as -> ->. eauto.
Qed.

Lemma str_in_spec (needle hay : pystr) :
  str_in needle hay = true <-> exists x y, hay = x ++ needle ++ y.
Proof.
  induction hay as [|c hay IH]; simpl.
  - rewrite orb_false_r, startswith_spec. split.
    + intros [y Hy]. by exists [], y.
    + intros (x & y & Hxy). destruct x; [by exists y|discriminate].
  - rewrite orb_true_iff, startswith_spec, IH. split.
    + intros [[y Hy]|(x & y & ->)]; [by exists [], y | by exists (c :: x), y].
    + intros (x & y & Hxy). destruct x as [|c' x]; simpl in Hxy.
      * left. by exists y.
      * right. injection Hxy as -> ->. by exists x, y.
Qed.

Lemma str_in_app_r (needle a b : pystr) :
  str_in needle b = true -> str_in needle (a ++ b) = true.
Proof.
  rewrite !str_in_spec. intros (x & y & ->).
  exists (a ++ x), y. by rewrite <- app_assoc.
Qed.

Lemma str_in_prefix (s r : pystr) : str_in s (s ++ r) = true.
Proof. apply str_in_spec. by exists [], r. Qed.

(** A string of white space strips to the empty string, and only such a
    string does. *)

Lemma lstrip_blank (s : pystr) : blank s -> lstrip s = [].
Proof. induction 1 as [|c s Hc _ IH]; simpl; [done | by rewrite Hc]. Qed.

Lemma lstrip_nil (s : pystr) : lstrip s = [] -> blank s.
Proof.
  induction s as [|c s IH]; simpl; intros Hs; [constructor|].
  destruct (isspace c) eqn:Hc; [|done].
  constructor; [exact Hc | exact (IH Hs)].
Qed.

Lemma lstrip_suffix (s : pystr) : exists x, blank x /\ s = x ++ lstrip s.
Proof.
  induction s as [|c s (x & Hx & IH)]; simpl.
  - exists []. split; [constructor | done].
  - destruct (isspace c) eqn:Hc.
    + exists (c :: x). split; [by constructor | simpl; congruence].
    + exists []. split; [constructor | done].
Qed.

Lemma blank_app (a b : pystr) : blank (a ++ b) <-> blank a /\ blank b.
Proof. apply Forall_app. Qed.

Lemma blank_rev (s : pystr) : blank (rev s) <-> blank s.
Proof.
  unfold blank. split; intros Hs.
  - rewrite <- (rev_involutive s). by apply List.Forall_rev.
  - by apply List.Forall_rev.
Qed.

Lemma strip_nil_iff (s : pystr) : strip s = [] <-> blank s.
Proof.
  unfold strip, rstrip. split.
  - intros Hs.
    assert (Hr : lstrip (rev (lstrip s)) = []).
    { apply (f_equal (@rev N)) in Hs. by rewrite rev_involutive in Hs. }
    apply lstrip_nil in Hr. apply (proj1 (blank_rev _)) in Hr.
    destruct (lstrip_suffix s) as (x & Hx & Hsx).
    rewrite Hsx. apply blank_app. split; assumption.
  - intros Hs. by rewrite (lstrip_blank s Hs).
Qed.

(** ** Reasoning about method bodies *)

(** String literals stay folded during simplification and unification;
    [vm_compute] still evaluates them. *)
#[global] Opaque py str_mul.
#[global] Arguments py : simpl never.
#[global] Arguments str_mul : simpl never.
#[global] Arguments str_of_N : simpl never.
#[global] Arguments str_join : simpl never.
#[global] Arguments Path_str : simpl never.
#[global] Arguments Path_suffix : simpl never.
#[global] Arguments analyzer._get_language_from_extension : simpl never.
#[global] Arguments utf8_len : simpl never.
#[global] Arguments N.mul : simpl never.
#[global] Arguments N.ltb : simpl never.
#[global] Arguments N.leb : simpl never.

Ltac msimpl :=
  cbn [fst snd analyzer log files_analyzed total_size andb negb].

Ltac munfold :=
  unfold mbind, M_bind, mret, M_ret, lift, raise, print, emit, get_analyzer,
    set_analyzer, try_except in *.

(** ** config.py *)

(** C10. Constructing the configuration raises (a [ValueError]) exactly
    when [GEMINI_API_KEY] is unset or empty; any other value is accepted and
    stored stripped, so a value of white space only is stored as the empty
    string. *)
Theorem config_raises_iff_unset_or_empty (getenv : option pystr) :
  ((exists e, config.Config_init getenv = Raise e) <->
   getenv = None \/ getenv = Some [])
  /\ (forall e, config.Config_init getenv = Raise e -> exn_cls e = ValueError)
  /\ (forall s, getenv = Some s -> s <> [] ->
      config.Config_init getenv = Ok {| config.gemini_api_key := strip s |})
  /\ (forall s, getenv = Some s -> s <> [] -> blank s ->
      config.Config_init getenv = Ok {| config.gemini_api_key := [] |}).
Proof.
  unfold config.Config_init, config._get_gemini_api_key.
  destruct getenv as [[|c s]|]; simpl.
  - split_and!; [split; eauto | by intros e [= <-] | |];
      intros s' [= <-] Hne; by destruct Hne.
  - split_and!.
    + split; [intros [e He]; discriminate | intros [|]; discriminate].
    + discriminate.
    + by intros s' [= <-] _.
    + intros s' [= <-] _ Hb. by rewrite (proj2 (strip_nil_iff _) Hb).
  - split_and!; [split; eauto | by intros e [= <-] | done | done].
Qed.

Lemma config_raises_iff_unset_or_empty_witness :
  py "  " <> [] /\ blank (py "  ")
  /\ config.Config_init (Some (py "  ")) = Ok {| config.gemini_api_key := [] |}.
Proof.
  assert (Hne : py "  " <> []) by (vm_compute; discriminate).
  assert (Hb : blank (py "  ")) by (vm_compute; repeat constructor).
  split; [exact Hne | split; [exact Hb |]].
  exact (proj2 (proj2 (proj2
    (config_raises_iff_unset_or_empty (Some (py "  "))))) _ eq_refl Hne Hb).
Defined.

(** ** gemini_client.py *)

Section client.
Context `{Unicode} (w : World).

(** C6. On an empty or white-space-only input [get_suggestions] returns the
    fixed message and leaves the state as it was: nothing is printed and no
    request is made. *)
Theorem blank_context_short_circuits (code_context : pystr) (st : state) :
  blank code_context ->
  gemini_client.get_suggestions w code_context st
  = (Ok gemini_client.no_content_message, st)
  /\ requests_made (log (gemini_client.get_suggestions w code_context st).2)
     = requests_made (log st).
Proof.
  intros Hb. unfold gemini_client.get_suggestions.
  rewrite bool_decide_eq_true_2 by (by apply strip_nil_iff).
  by split.
Qed.

(** The string [get_suggestions] returns does not depend on the state. *)
Lemma get_suggestions_result (code_context : pystr) (st st' : state) :
  (gemini_client.get_suggestions w code_context st).1
  = (gemini_client.get_suggestions w code_context st').1.
Proof.
  unfold gemini_client.get_suggestions, gemini_client.call_generate_content.
  case_bool_decide; [done|]. munfold. simpl.
  destruct (generate_content w _ _) as [[[|c t]|]|e]; simpl; try done.
  by destruct (is_Exception e).
Qed.

(** C4. For every input and every outcome of the call that is a response
    or an [Exception], [get_suggestions] returns a string: the fixed
    message for a blank input; otherwise the banner, the stripped text and
    the footer for a response with text, the no-response message for a
    response without text, and for an [Exception] the error line holding
    [str(e)] followed by at most one of the three hints. An exception that
    is not an [Exception] is not caught: [get_suggestions] raises it. *)
Theorem get_suggestions_returns_unless_interrupted (code_context : pystr)
    (st : state) :
  let outcome :=
    generate_content w (py "gemini-2.5-pro")
      (gemini_client._build_analysis_prompt code_context) in
  ((forall e, outcome = Raise e -> is_Exception e = true) ->
   exists s, (gemini_client.get_suggestions w code_context st).1 = Ok s /\
     ((blank code_context
       /\ s = py "❌ No code content provided for analysis.")
      \/ (~ blank code_context /\
          ((exists t, outcome = Ok (Some t) /\ t <> [] /\
                      s = response_banner ++ strip t ++ response_footer)
           \/ ((outcome = Ok None \/ outcome = Ok (Some [])) /\
               s = py "❌ No response received from Gemini API.")
           \/ (exists e hint,
                 outcome = Raise e /\
                 s = py "❌ Error communicating with Gemini API: "
                     ++ exn_str e ++ hint /\
                 (hint = []
                  \/ hint = nl ++ py "💡 Make sure your GEMINI_API_KEY is set correctly in the .env file."
                  \/ hint = nl ++ py "💡 You may have exceeded your API quota. Check your Google AI Studio dashboard."
                  \/ hint = nl ++ py "💡 Check your internet connection and try again."))))))
  /\ (forall e,
        ~ blank code_context -> outcome = Raise e -> is_Exception e = false ->
        (gemini_client.get_suggestions w code_context st).1 = Raise e).
Proof.
  intros outcome. subst outcome.
  unfold gemini_client.get_suggestions, gemini_client.call_generate_content.
  split.
  - intros Hexc. case_bool_decide as Hstrip.
    { eexists. split; [reflexivity|]. left.
      split; [by apply strip_nil_iff | reflexivity]. }
    assert (Hnb : ~ blank code_context) by (by rewrite <- strip_nil_iff).
    munfold. msimpl.
    destruct (generate_content w _ _) as [[[|c t]|]|e] eqn:Hout; msimpl.
    + eexists. split; [reflexivity|]. right. split; [exact Hnb|].
      right. left. split; [by right | reflexivity].
    + eexists. split; [reflexivity|]. right. split; [exact Hnb|].
      left. exists (c :: t). split_and!; [reflexivity | discriminate |].
      unfold gemini_client._format_response, response_banner,
        response_footer.
      by rewrite <- !app_assoc.
    + eexists. split; [reflexivity|]. right. split; [exact Hnb|].
      right. left. split; [by left | reflexivity].
    + rewrite (Hexc e eq_refl). msimpl.
      eexists. split; [reflexivity|]. right. split; [exact Hnb|].
      right. right. exists e.
      unfold gemini_client.error_message, gemini_client.api_key_hint,
        gemini_client.quota_hint, gemini_client.network_hint.
      destruct (str_in (py "API_KEY") _).
      { eexists. split_and!; [reflexivity | by rewrite <- app_assoc |].
        right. left. reflexivity. }
      destruct (str_in (py "quota") _).
      { eexists. split_and!; [reflexivity | by rewrite <- app_assoc |].
        right. right. left. reflexivity. }
      destruct (str_in (py "network") _).
      { eexists. split_and!; [reflexivity | by rewrite <- app_assoc |].
        right. right. right. reflexivity. }
      exists []. split_and!; [reflexivity | by rewrite app_nil_r |].
      left. reflexivity.
  - intros e Hnb Hout He.
    rewrite bool_decide_eq_false_2 by (by rewrite strip_nil_iff).
    munfold. msimpl. rewrite Hout. msimpl. by rewrite He.
Qed.

End client.

(** ** analyzer.py: the aggregation loop *)

Section aggregator.
Context `{Unicode} (w : World).

Lemma aggregate_step_spec (acc : list pystr) (p : Path) (st : state) :
  (analyzer.aggregate_step w acc p st).1 = step_result w acc p
  /\ analyzer (analyzer.aggregate_step w acc p st).2
     = step_counters w p (analyzer st).
Proof.
  unfold analyzer.aggregate_step, analyzer._read_file_content, step_result,
    step_counters, included, block, file_content,
    Path_relative_to_last_parent.
  munfold. destruct (open_read w p) as [c|e]; msimpl.
  - rewrite N.leb_antisym. destruct (1024 * 1024 <? utf8_len c); msimpl.
    + rewrite !andb_false_r.
      rewrite (bool_decide_eq_false_2 ([] <> [])) by (intros Hx; by apply Hx).
      done.
    + rewrite andb_true_r. destruct (decide (c = [])) as [->|Hc].
      * rewrite !(bool_decide_eq_false_2 ([] <> []))
          by (intros Hx; by apply Hx).
        done.
      * rewrite !(bool_decide_eq_true_2 (c <> [])) by done. msimpl.
        destruct (parts p) as [|x ps] eqn:Hp; msimpl.
        { rewrite bool_decide_eq_false_2 by (intros Hx; by apply Hx). done. }
        rewrite bool_decide_eq_true_2 by done.
        split; [|done]. unfold Path_str. cbn [absolute parts].
        by rewrite <- !app_assoc.
  - by destruct (is_read_error e).
Qed.

Lemma aggregate_step_result (acc : list pystr) (p : Path) (st : state) :
  (analyzer.aggregate_step w acc p st).1 = step_result w acc p.
Proof. apply aggregate_step_spec. Qed.

Lemma aggregate_step_counters (acc : list pystr) (p : Path) (st : state) :
  analyzer (analyzer.aggregate_step w acc p st).2
  = step_counters w p (analyzer st).
Proof. apply aggregate_step_spec. Qed.

Lemma aggregate_loop_spec (acc : list pystr) (l : list Path) (st : state) :
  (analyzer.aggregate_loop w acc l st).1 = loop_result w acc l
  /\ analyzer (analyzer.aggregate_loop w acc l st).2
     = loop_counters w acc l (analyzer st).
Proof.
  revert acc st. induction l as [|p l IH]; intros acc st; [done|].
  cbn [analyzer.aggregate_loop loop_result loop_counters].
  destruct (aggregate_step_spec acc p st) as [Hr Hc].
  unfold mbind, M_bind.
  destruct (analyzer.aggregate_step w acc p st) as [[acc'|e] st'];
    cbn [fst snd] in Hr, Hc; rewrite <- Hr, <- Hc; [apply IH | done].
Qed.

Lemma aggregate_file_contents_spec (l : list Path) (st : state) :
  (analyzer._aggregate_file_contents w l st).1
  = match loop_result w [] l with
    | Ok aggregated_parts => Ok (str_join nl aggregated_parts)
    | Raise e => Raise e
    end
  /\ analyzer (analyzer._aggregate_file_contents w l st).2
     = loop_counters w [] l (analyzer st).
Proof.
  unfold analyzer._aggregate_file_contents, mbind, M_bind, mret, M_ret.
  destruct (aggregate_loop_spec [] l st) as [Hr Hc].
  destruct (analyzer.aggregate_loop w [] l st) as [[aggregated_parts|e] st'];
    cbn [fst snd] in Hr, Hc; by rewrite <- Hr, <- Hc.
Qed.

(** What the loop collects: the blocks of the included files, in order. *)
Lemma step_result_ok (acc : list pystr) (p : Path) :
  readable w p -> named p ->
  step_result w acc p
  = Ok (if included w p then acc ++ [block w p] else acc).
Proof.
  unfold readable, named, step_result, included.
  destruct (open_read w p) as [c|e].
  - intros _ Hp. destruct (parts p); [done|].
    by destruct (bool_decide (c <> []) && (utf8_len c <=? 1024 * 1024)).
  - by intros ->.
Qed.

Lemma step_result_inv (acc acc' : list pystr) (p : Path) :
  step_result w acc p = Ok acc' ->
  acc' = if included w p then acc ++ [block w p] else acc.
Proof.
  unfold step_result, included.
  destruct (open_read w p) as [c|e].
  - destruct (bool_decide (c <> []) && (utf8_len c <=? 1024 * 1024)).
    + destruct (parts p); [done | by intros [= <-]].
    + by intros [= <-].
  - destruct (is_read_error e); [by intros [= <-] | done].
Qed.

Lemma blocks_cons (acc : list pystr) (p : Path) (l : list Path) :
  (if included w p then acc ++ [block w p] else acc)
  ++ (block w <$> List.filter (included w) l)
  = acc ++ (block w <$> List.filter (included w) (p :: l)).
Proof.
  cbn [List.filter]. destruct (included w p); [|done].
  by rewrite <- app_assoc.
Qed.

Lemma loop_result_ok (acc : list pystr) (l : list Path) :
  Forall (readable w) l -> Forall named l ->
  loop_result w acc l = Ok (acc ++ (block w <$> List.filter (included w) l)).
Proof.
  intros Hr. revert acc. induction Hr as [|p l Hp _ IH]; intros acc Hn.
  - cbn. by rewrite app_nil_r.
  - apply Forall_cons in Hn as [Hnp Hn].
    cbn [loop_result]. rewrite (step_result_ok acc p Hp Hnp).
    rewrite (IH _ Hn). by rewrite blocks_cons.
Qed.

Lemma loop_result_inv (acc aggregated_parts : list pystr) (l : list Path) :
  loop_result w acc l = Ok aggregated_parts ->
  aggregated_parts = acc ++ (block w <$> List.filter (included w) l).
Proof.
  revert acc. induction l as [|p l IH]; intros acc.
  - cbn. intros [= <-]. by rewrite app_nil_r.
  - cbn [loop_result].
    destruct (step_result w acc p) as [acc'|e] eqn:Hs; [|done].
    intros Hl. apply IH in Hl as ->. apply step_result_inv in Hs as ->.
    apply blocks_cons.
Qed.

(** C1. The text [_aggregate_file_contents] returns is the blocks of the
    included files, in the order of the list, joined by single newlines;
    each block is the header of [block] followed by the raw content. *)
Theorem aggregated_text_is_joined_blocks (file_paths : list Path)
    (st : state) :
  Forall (readable w) file_paths -> Forall named file_paths ->
  (analyzer._aggregate_file_contents w file_paths st).1
  = Ok (str_join nl (block w <$> List.filter (included w) file_paths)).
Proof.
  intros Hr Hn.
  rewrite (proj1 (aggregate_file_contents_spec file_paths st)).
  by rewrite (loop_result_ok [] file_paths Hr Hn).
Qed.

(** A file that is read but not included leaves the loop as it found it. *)
Lemma step_skips (acc : list pystr) (f : Path) (a : CodeAnalyzer) :
  included w f = false -> readable w f ->
  step_result w acc f = Ok acc /\ step_counters w f a = a.
Proof.
  unfold step_result, step_counters, readable. intros ->.
  destruct (open_read w f) as [c|e]; [done | by intros ->].
Qed.

Lemma loop_skips (before after : list Path) (f : Path) (acc : list pystr)
    (a : CodeAnalyzer) :
  included w f = false -> readable w f ->
  loop_result w acc (before ++ f :: after)
  = loop_result w acc (before ++ after)
  /\ loop_counters w acc (before ++ f :: after) a
     = loop_counters w acc (before ++ after) a.
Proof.
  intros Hf Hr. revert acc a.
  induction before as [|p before IH]; intros acc a.
  - cbn [app loop_result loop_counters].
    by destruct (step_skips acc f a Hf Hr) as [-> ->].
  - cbn [app loop_result loop_counters].
    destruct (step_result w acc p) as [acc'|e]; [apply IH | done].
Qed.

Lemma oversized_not_included (f : Path) (content : pystr) :
  open_read w f = Ok content -> 1024 * 1024 < utf8_len content ->
  included w f = false /\ readable w f.
Proof.
  unfold included, readable. intros -> Hbig. split; [|done].
  apply andb_false_iff. right. by apply N.leb_gt.
Qed.

(** C3. A file whose content is longer than 1 MiB once encoded adds no
    block and leaves both counters alone, and the scan goes on: with the
    file in the list, the aggregator returns the text and the counters it
    returns without it. *)
Theorem oversized_file_is_skipped (before after : list Path) (f : Path)
    (content : pystr) (st : state) :
  open_read w f = Ok content -> 1024 * 1024 < utf8_len content ->
  (forall acc st',
     (analyzer.aggregate_step w acc f st').1 = Ok acc /\
     analyzer (analyzer.aggregate_step w acc f st').2 = analyzer st')
  /\ (analyzer._aggregate_file_contents w (before ++ f :: after) st).1
     = (analyzer._aggregate_file_contents w (before ++ after) st).1
  /\ analyzer (analyzer._aggregate_file_contents w (before ++ f :: after) st).2
     = analyzer (analyzer._aggregate_file_contents w (before ++ after) st).2.
Proof.
  intros Hread Hbig.
  destruct (oversized_not_included f content Hread Hbig) as [Hf Hr].
  split_and!.
  - intros acc st'. destruct (aggregate_step_spec acc f st') as [-> ->].
    apply step_skips; done.
  - rewrite !(proj1 (aggregate_file_contents_spec _ st)).
    by rewrite (proj1 (loop_skips before after f [] (analyzer st) Hf Hr)).
  - rewrite !(proj2 (aggregate_file_contents_spec _ st)).
    apply loop_skips; done.
Qed.

End aggregator.

(** ** analyzer.py: the walk and the scan *)

Lemma node_ind_nested (P : node -> Prop) :
  P File ->
  (forall entries, Forall (fun e => P e.2) entries -> P (Dir entries)) ->
  forall n, P n.
Proof.
  intros HF HD. fix IH 1. intros [|entries]; [exact HF|].
  apply HD. induction entries as [|[d child] entries IHentries].
  - constructor.
  - constructor; [apply IH | exact IHentries].
Qed.

Section scan.
Context `{Unicode} (w : World).

Lemma walk_Dir (root : Path) (entries : list (pystr * node)) :
  analyzer.walk root (Dir entries)
  = filter (fun p => analyzer.is_source_file p = true)
           (Path_div root <$> analyzer.scandir_files entries)
    ++ walk_subdirs root entries.
Proof.
  cbn [analyzer.walk]. f_equal.
  induction entries as [|[d child] entries IH]; [done|].
  cbn [walk_subdirs]. by rewrite <- IH.
Qed.

(** Every path the walk returns lies below the root, under directories
    that are not ignored. *)
Lemma walk_below_unignored (n : node) :
  forall root p, p ∈ analyzer.walk root n -> below_unignored root p.
Proof.
  induction n as [|entries IH] using node_ind_nested; intros root p Hp.
  - by apply elem_of_nil in Hp.
  - rewrite walk_Dir in Hp. apply elem_of_app in Hp as [Hp|Hp].
    + apply list_elem_of_filter in Hp as [_ Hp].
      apply list_elem_of_fmap in Hp as (name & -> & _).
      split; [done|]. exists [], name. split; [done | constructor].
    + induction IH as [|[d child] entries IHchild _ IHentries];
        cbn [walk_subdirs] in Hp; [by apply elem_of_nil in Hp|].
      apply elem_of_app in Hp as [Hp|Hp]; [|by apply IHentries].
      destruct (is_Dir child); cbn [andb] in Hp;
        [|by apply elem_of_nil in Hp].
      case_bool_decide as Hd; [|by apply elem_of_nil in Hp].
      apply IHchild in Hp as (Habs & dirs & name & Hparts & Hdirs).
      split; [done|]. exists (d :: dirs), name. split.
      * rewrite Hparts. cbn [Path_div parts]. by rewrite <- app_assoc.
      * by constructor.
Qed.

Lemma walk_named (n : node) (root p : Path) :
  p ∈ analyzer.walk root n -> named p.
Proof.
  intros Hp. apply walk_below_unignored in Hp as (_ & dirs & name & Hp & _).
  unfold named. rewrite Hp. intros Hnil.
  apply app_eq_nil in Hnil as [_ Hnil]. by apply app_eq_nil in Hnil as [_ ?].
Qed.

(** The text of a scan does not depend on the state it starts from. *)
Lemma analyze_codebase_result (directory_path : pystr) (st : state) :
  (analyzer.analyze_codebase w directory_path st).1
  = scan_result w directory_path.
Proof.
  unfold analyzer.analyze_codebase, scan_result, analyzer._find_source_files.
  destruct (path_stat w (Path_of_str directory_path)) as [[|entries]|];
    [done| |done].
  munfold. msimpl.
  destruct (analyzer.walk (Path_of_str directory_path) (Dir entries))
    as [|p l]; [done|].
  msimpl.
  match goal with
  | |- context [analyzer._aggregate_file_contents w ?fs ?s] =>
    destruct (aggregate_file_contents_spec w fs s) as [Hr _];
    destruct (analyzer._aggregate_file_contents w fs s) as [[t|e] st']
  end; cbn [fst] in Hr; by rewrite <- Hr.
Qed.

(** C8. Two scans of the same directory in the same world return the same
    text (or raise the same exception): the result is a function of the
    world and the path, whatever the counters and the log hold, and so also
    when the second scan starts from the state the first one left. *)
Theorem scan_is_deterministic (directory_path : pystr) (st st' : state) :
  (analyzer.analyze_codebase w directory_path st).1
  = (analyzer.analyze_codebase w directory_path st').1
  /\ (analyzer.analyze_codebase w directory_path
       (analyzer.analyze_codebase w directory_path st).2).1
     = (analyzer.analyze_codebase w directory_path st).1.
Proof. by rewrite !analyze_codebase_result. Qed.

Lemma scan_result_blocks (directory_path text : pystr) :
  scan_result w directory_path = Ok text ->
  text = str_join nl
           (block w <$> List.filter (included w)
              (analyzer._find_source_files w (Path_of_str directory_path))).
Proof.
  unfold scan_result, analyzer._find_source_files.
  destruct (path_stat w (Path_of_str directory_path)) as [[|entries]|];
    [done| |done].
  destruct (loop_result w [] _) as [aggregated_parts|e] eqn:Hl; [|done].
  intros [= <-]. by apply loop_result_inv in Hl as ->.
Qed.

Lemma scan_result_ok (directory_path : pystr)
    (entries : list (pystr * node)) :
  path_stat w (Path_of_str directory_path) = Some (Dir entries) ->
  Forall (readable w)
    (analyzer._find_source_files w (Path_of_str directory_path)) ->
  scan_result w directory_path
  = Ok (str_join nl
          (block w <$> List.filter (included w)
             (analyzer._find_source_files w (Path_of_str directory_path)))).
Proof.
  unfold scan_result, analyzer._find_source_files. intros -> Hr.
  rewrite loop_result_ok; [done | done |].
  apply Forall_forall. intros p Hp. by eapply walk_named.
Qed.

(** C7, as the code has it. Every file the scan reads lies below the
    scanned directory with no ignored directory on the way down from it,
    whatever the extension, and the text is made of blocks of such files
    only; the scan returns that text whenever the directory exists and its
    files can be read. The scanned directory itself and the directories
    above it are not compared with the ignore set. *)
Theorem files_under_ignored_subdirectories_are_left_out
    (directory_path : pystr) (st : state) :
  (forall p,
     p ∈ analyzer._find_source_files w (Path_of_str directory_path) ->
     below_unignored (Path_of_str directory_path) p)
  /\ (forall text,
       (analyzer.analyze_codebase w directory_path st).1 = Ok text ->
       text = str_join nl
                (block w <$> List.filter (included w)
                   (analyzer._find_source_files w
                      (Path_of_str directory_path))))
  /\ (forall entries,
       path_stat w (Path_of_str directory_path) = Some (Dir entries) ->
       Forall (readable w)
         (analyzer._find_source_files w (Path_of_str directory_path)) ->
       (analyzer.analyze_codebase w directory_path st).1
       = Ok (str_join nl
               (block w <$> List.filter (included w)
                  (analyzer._find_source_files w
                     (Path_of_str directory_path))))).
Proof.
  split_and!.
  - intros p. unfold analyzer._find_source_files.
    destruct (path_stat w (Path_of_str directory_path)) as [n|].
    + apply walk_below_unignored.
    + intros Hp. by apply elem_of_nil in Hp.
  - intros text. rewrite analyze_codebase_result. apply scan_result_blocks.
  - intros entries Hstat Hr. rewrite analyze_codebase_result.
    by apply (scan_result_ok directory_path entries).
Qed.

End scan.

(** ** One file [a.py] *)

Section one_file.
Context `{Unicode} (w : World).

Lemma Path_name_div (root : Path) (name : pystr) :
  Path_name (Path_div root name) = name.
Proof. unfold Path_name, Path_div. cbn [parts]. apply last_last. Qed.

Lemma a_py_suffix (root : Path) :
  Path_suffix (Path_div root (py "a.py")) = py ".py".
Proof. unfold Path_suffix. rewrite Path_name_div. by vm_compute. Qed.

Lemma lower_dot_py : str_lower (py ".py") = py ".py".
Proof.
  rewrite str_lower_ascii; [by vm_compute|].
  vm_compute. repeat constructor.
Qed.

Lemma a_py_is_source_file (root : Path) :
  analyzer.is_source_file (Path_div root (py "a.py")) = true.
Proof.
  unfold analyzer.is_source_file. rewrite a_py_suffix, lower_dot_py.
  by vm_compute.
Qed.

Lemma a_py_language (root : Path) :
  analyzer._get_language_from_extension
    (Path_suffix (Path_div root (py "a.py"))) = py "Python".
Proof.
  unfold analyzer._get_language_from_extension.
  rewrite a_py_suffix, lower_dot_py. by vm_compute.
Qed.

(** C2, as the code has it. Scanning a directory that holds the one file
    [a.py] with content [print(1)] returns exactly one block, labelled
    [LANGUAGE: Python] and followed by [print(1)]; its [FILE:] label is the
    path of the file as the scan built it, without the leading ["/"]: the
    components of the scanned directory, then [a.py]. *)
Theorem single_file_block (directory_path : pystr) (st : state) :
  path_stat w (Path_of_str directory_path) = Some (Dir [(py "a.py", File)]) ->
  open_read w (Path_div (Path_of_str directory_path) (py "a.py"))
  = Ok (py "print(1)") ->
  (analyzer.analyze_codebase w directory_path st).1
  = Ok (nl ++ str_mul (py "=") 80 ++ nl
        ++ py "FILE: "
        ++ str_join (py "/") (parts (Path_of_str directory_path) ++ [py "a.py"])
        ++ nl
        ++ py "LANGUAGE: Python" ++ nl
        ++ str_mul (py "=") 80 ++ nl ++ nl
        ++ py "print(1)").
Proof.
  intros Hstat Hread. rewrite analyze_codebase_result.
  unfold scan_result. rewrite Hstat, walk_Dir.
  set (p := Path_div (Path_of_str directory_path) (py "a.py")).
  assert (Hw : filter (fun p => analyzer.is_source_file p = true)
                 (Path_div (Path_of_str directory_path)
                    <$> analyzer.scandir_files [(py "a.py", File)])
               ++ walk_subdirs (Path_of_str directory_path) [(py "a.py", File)]
               = [p]).
  { cbn [walk_subdirs is_Dir andb app]. rewrite app_nil_r.
    change (analyzer.scandir_files [(py "a.py", File)]) with [py "a.py"].
    cbn [fmap list_fmap]. rewrite filter_cons_True by apply a_py_is_source_file.
    done. }
  rewrite Hw.
  assert (Hinc : included w p = true).
  { unfold included, p. rewrite Hread. by vm_compute. }
  rewrite loop_result_ok.
  - cbn [List.filter]. rewrite Hinc. cbn [app fmap list_fmap].
    unfold block, file_content, p. rewrite Hread, a_py_language. done.
  - repeat constructor. unfold readable, p. by rewrite Hread.
  - repeat constructor. unfold named, p. cbn [Path_div parts].
    intros Hnil. by apply app_eq_nil in Hnil as [_ ?].
Qed.

End one_file.

(** ** The analyzer on concrete directories *)

(** C2 as stated fails: for the directory [/srv/proj] the label is
    [FILE: srv/proj/a.py], and [FILE: a.py] occurs nowhere in the text. *)
Lemma single_file_label_counterexample :
  path_stat world_abs (Path_of_str (py "/srv/proj"))
  = Some (Dir [(py "a.py", File)])
  /\ open_read world_abs (Path_div (Path_of_str (py "/srv/proj")) (py "a.py"))
     = Ok (py "print(1)")
  /\ exists text,
       (analyzer.analyze_codebase world_abs (py "/srv/proj") st0).1 = Ok text
       /\ str_in (py "FILE: srv/proj/a.py") text = true
       /\ str_in (py "FILE: a.py") text = false.
Proof.
  split; [by vm_compute | split; [by vm_compute|]].
  eexists. split; [by vm_compute|]. split; by vm_compute.
Qed.

Lemma single_file_block_witness :
  path_stat world_dot (Path_of_str (py "."))
  = Some (Dir [(py "a.py", File)])
  /\ open_read world_dot (Path_div (Path_of_str (py ".")) (py "a.py"))
     = Ok (py "print(1)")
  /\ (analyzer.analyze_codebase world_dot (py ".") st0).1
     = Ok (nl ++ str_mul (py "=") 80 ++ nl
           ++ py "FILE: "
           ++ str_join (py "/") (parts (Path_of_str (py ".")) ++ [py "a.py"])
           ++ nl
           ++ py "LANGUAGE: Python" ++ nl
           ++ str_mul (py "=") 80 ++ nl ++ nl
           ++ py "print(1)").
Proof.
  assert (Hs : path_stat world_dot (Path_of_str (py "."))
               = Some (Dir [(py "a.py", File)])) by (by vm_compute).
  assert (Hr : open_read world_dot
                 (Path_div (Path_of_str (py ".")) (py "a.py"))
               = Ok (py "print(1)")) by reflexivity.
  split; [exact Hs | split; [exact Hr|]].
  exact (single_file_block world_dot (py ".") st0 Hs Hr).
Defined.

(** C7 as stated fails for the scanned directory itself: [build] is in the
    ignore set, [build/a.py] lies beneath it, and its block is in the
    text. *)
Lemma ignored_scan_root_counterexample :
  py "build" ∈ analyzer.IGNORED_DIRECTORIES
  /\ Path_div (Path_of_str (py "build")) (py "a.py")
     ∈ analyzer._find_source_files world_build (Path_of_str (py "build"))
  /\ exists text,
       (analyzer.analyze_codebase world_build (py "build") st0).1 = Ok text
       /\ str_in (py "FILE: build/a.py") text = true.
Proof.
  split; [apply (bool_decide_unpack _); by vm_compute|].
  split; [apply (bool_decide_unpack _); by vm_compute|].
  eexists. split; by vm_compute.
Qed.

(** ** main.py *)

Section orchestrator.
Context `{Unicode} (w : World).

Lemma result_with_state {A} (m : result A * state) (r : result A) :
  m.1 = r -> m = (r, m.2).
Proof. destruct m. by intros <-. Qed.

(** The answer of [validate_api_key] does not depend on the state. *)
Lemma validate_api_key_result (st st' : state) :
  (gemini_client.validate_api_key w st).1
  = (gemini_client.validate_api_key w st').1.
Proof.
  unfold gemini_client.validate_api_key, gemini_client.call_generate_content.
  munfold. msimpl.
  destruct (generate_content w _ _) as [[[|c t]|]|e]; msimpl; try done.
  by destruct (is_Exception e).
Qed.

Lemma validate_environment_ok (st : state) :
  (gemini_client.validate_api_key w st).1 = Ok true ->
  (main._validate_environment w st).1 = Ok true.
Proof.
  intros Hv. unfold main._validate_environment. munfold. msimpl.
  match goal with
  | |- context [gemini_client.validate_api_key w ?s] =>
    rewrite (validate_api_key_result st s) in Hv;
    rewrite (result_with_state _ _ Hv)
  end.
  done.
Qed.

(** Saving the report: what happens when both calls succeed, and when one
    of them raises an [Exception]. *)
Lemma save_succeeds (suggestions directory_path : pystr) (st : state) :
  path_mkdir w report_dir = Ok () ->
  open_write w (report_path w) (report_of w directory_path suggestions)
  = Ok () ->
  main._save_suggestions_to_file w suggestions directory_path st
  = (Ok (),
     {| analyzer := analyzer st;
        log := log st
               ++ [Mkdir report_dir;
                   WriteFile (report_path w)
                     (report_of w directory_path suggestions);
                   Print (nl ++ py "Analysis saved to: "
                          ++ Path_str (report_path w))] |}).
Proof.
  unfold report_path, report_of, report_dir. intros Hm Hw.
  unfold main._save_suggestions_to_file. munfold.
  rewrite Hm. msimpl. rewrite Hw. msimpl. by rewrite <- !app_assoc.
Qed.

Lemma save_fails (suggestions directory_path : pystr) (st : state) (e : exn) :
  is_Exception e = true ->
  path_mkdir w report_dir = Raise e
  \/ (path_mkdir w report_dir = Ok () /\
      open_write w (report_path w) (report_of w directory_path suggestions)
      = Raise e) ->
  exists l,
    main._save_suggestions_to_file w suggestions directory_path st
    = (Ok (),
       {| analyzer := analyzer st;
          log := (log st ++ l) ++ [Print (save_warning e)] |})
    /\ files_written l = [].
Proof.
  unfold report_path, report_of, report_dir. intros He Hfail.
  unfold main._save_suggestions_to_file. munfold.
  destruct Hfail as [Hm|[Hm Hw]]; rewrite Hm; msimpl.
  - rewrite He. exists []. by rewrite app_nil_r.
  - rewrite Hw. msimpl. rewrite He. by exists [Mkdir report_dir].
Qed.


(** A run whose checks pass, whose scan finds text and whose analysis
    returns a string gets as far as saving the report, and returns 0 when
    saving returns. *)
Lemma run_reaches_save (directory_path code_context suggestions : pystr)
    (st : state) :
  (gemini_client.validate_api_key w st).1 = Ok true ->
  (analyzer.analyze_codebase w directory_path st).1 = Ok code_context ->
  code_context <> [] ->
  (gemini_client.get_suggestions w code_context st).1 = Ok suggestions ->
  exists st_report,
    forall st_end,
      main._save_suggestions_to_file w suggestions directory_path st_report
      = (Ok (), st_end) ->
      main.run w directory_path st = (Ok 0%Z, st_end).
Proof.
  intros Hval Hscan Hne Hsug. eexists. intros st_end Hsave.
  rewrite analyze_codebase_result in Hscan.
  unfold main.run, main._print_header. munfold. msimpl.
  match goal with
  | |- context [main._validate_environment w ?s] =>
    rewrite (result_with_state _ _ (validate_environment_ok s
               (eq_trans (validate_api_key_result s st) Hval)))
  end.
  msimpl.
  match goal with
  | |- context [analyzer.analyze_codebase w directory_path ?s] =>
    rewrite (result_with_state _ _
               (eq_trans (analyze_codebase_result w directory_path s) Hscan))
  end.
  rewrite bool_decide_eq_false_2 by done.
  match goal with
  | |- context [gemini_client.get_suggestions w code_context ?s] =>
    rewrite (result_with_state _ _
               (eq_trans (get_suggestions_result w code_context s st) Hsug))
  end.
  msimpl. rewrite Hsave. reflexivity.
Qed.


(** C9. When the checks pass, the scan finds text and the analysis returns
    a string, a failure (an [Exception]) while making the report directory
    or writing the report file is caught: the run prints the warning last
    and returns 0. *)
Theorem report_write_failure_is_not_fatal
    (directory_path code_context suggestions : pystr) (st : state) (e : exn) :
  (gemini_client.validate_api_key w st).1 = Ok true ->
  (analyzer.analyze_codebase w directory_path st).1 = Ok code_context ->
  code_context <> [] ->
  (gemini_client.get_suggestions w code_context st).1 = Ok suggestions ->
  is_Exception e = true ->
  path_mkdir w report_dir = Raise e
  \/ (path_mkdir w report_dir = Ok () /\
      open_write w (report_path w) (report_of w directory_path suggestions)
      = Raise e) ->
  (main.run w directory_path st).1 = Ok 0%Z
  /\ last (log (main.run w directory_path st).2)
     = Some (Print (save_warning e)).
Proof.
  intros Hval Hscan Hne Hsug He Hfail.
  destruct (run_reaches_save directory_path code_context suggestions st
              Hval Hscan Hne Hsug) as [st_report Hrun].
  destruct (save_fails suggestions directory_path st_report e He Hfail)
    as (l & Hsave & _).
  rewrite (Hrun _ Hsave). split; [done|]. cbn [snd log]. apply last_snoc.
Qed.

(** The text of a scan, when there is any, is not blank: it starts with a
    delimiter line. *)
Lemma str_join_cons (sep x : pystr) (l : list pystr) :
  exists tl, str_join sep (x :: l) = x ++ tl.
Proof.
  destruct l as [|y l]; [exists []; by rewrite app_nil_r|].
  by exists (sep ++ str_join sep (y :: l)).
Qed.

Lemma delimiter_head : str_mul (py "=") 80 = 61 :: str_mul (py "=") 79.
Proof. by vm_compute. Qed.

Lemma scan_result_not_blank (directory_path code_context : pystr) :
  scan_result w directory_path = Ok code_context ->
  code_context <> [] -> ~ blank code_context.
Proof.
  intros Hscan Hne Hb. apply scan_result_blocks in Hscan.
  destruct (List.filter (included w) _) as [|f fs]; [done|].
  cbn [fmap list_fmap] in Hscan.
  destruct (str_join_cons nl (block w f) (block w <$> fs)) as [tl Htl].
  rewrite Htl in Hscan. unfold block in Hscan.
  rewrite delimiter_head in Hscan. subst code_context.
  apply Forall_cons in Hb as [_ Hb]. apply Forall_cons in Hb as [H61 _].
  by vm_compute in H61.
Qed.

Lemma get_suggestions_error (code_context : pystr) (st : state) (e : exn) :
  ~ blank code_context ->
  generate_content w (py "gemini-2.5-pro")
    (gemini_client._build_analysis_prompt code_context) = Raise e ->
  is_Exception e = true ->
  (gemini_client.get_suggestions w code_context st).1
  = Ok (gemini_client.error_message e).
Proof.
  intros Hnb Hout He.
  unfold gemini_client.get_suggestions, gemini_client.call_generate_content.
  rewrite bool_decide_eq_false_2 by (by rewrite strip_nil_iff).
  munfold. msimpl. rewrite Hout. msimpl. by rewrite He.
Qed.

Lemma lower_keeps_quota (s : pystr) :
  str_in (py "quota") s = true -> str_in (py "quota") (str_lower s) = true.
Proof.
  rewrite !str_in_spec. intros (x & y & ->).
  assert (Ha : Forall is_ascii (py "quota")).
  { vm_compute. repeat constructor. }
  destruct (str_lower_infix x (py "quota") y Ha) as (x' & y' & ->).
  assert (Hq : ascii_lower_char <$> py "quota" = py "quota") by (by vm_compute).
  exists x', y'.
  rewrite Hq.
  reflexivity.
Qed.

Lemma quota_hint_chosen (e : exn) :
  str_in (py "quota") (exn_str e) = true ->
  str_in (py "API_KEY") (str_upper (exn_str e)) = false ->
  gemini_client.error_message e
  = (py "❌ Error communicating with Gemini API: " ++ exn_str e)
    ++ gemini_client.quota_hint.
Proof.
  intros Hq Hk. unfold gemini_client.error_message.
  by rewrite Hk, (lower_keeps_quota _ Hq).
Qed.

Lemma report_has_suggestions (generated directory_path suggestions : pystr) :
  str_in suggestions
    (main.report_content generated directory_path suggestions) = true.
Proof.
  unfold main.report_content.
  do 18 apply str_in_app_r.
  apply str_in_prefix.
Qed.

(** C5, as the code has it. When the remote call raises an [Exception]
    whose text contains ["quota"] and whose upper-cased text does not
    contain ["API_KEY"], [get_suggestions] returns the error message with
    the quota hint; and when the report directory can be made and the file
    written, the run returns 0 having written a report that holds the
    returned string as it is. *)
Theorem quota_error_is_hinted_and_reported
    (directory_path code_context : pystr) (st : state) (e : exn) :
  (gemini_client.validate_api_key w st).1 = Ok true ->
  (analyzer.analyze_codebase w directory_path st).1 = Ok code_context ->
  code_context <> [] ->
  generate_content w (py "gemini-2.5-pro")
    (gemini_client._build_analysis_prompt code_context) = Raise e ->
  is_Exception e = true ->
  str_in (py "quota") (exn_str e) = true ->
  str_in (py "API_KEY") (str_upper (exn_str e)) = false ->
  path_mkdir w report_dir = Ok () ->
  open_write w (report_path w)
    (report_of w directory_path (gemini_client.error_message e)) = Ok () ->
  (gemini_client.get_suggestions w code_context st).1
  = Ok (gemini_client.error_message e)
  /\ str_in gemini_client.quota_hint (gemini_client.error_message e) = true
  /\ (main.run w directory_path st).1 = Ok 0%Z
  /\ WriteFile (report_path w)
       (report_of w directory_path (gemini_client.error_message e))
     ∈ log (main.run w directory_path st).2
  /\ str_in (gemini_client.error_message e)
       (report_of w directory_path (gemini_client.error_message e)) = true.
Proof.
  intros Hval Hscan Hne Hout He Hq Hk Hm Hw.
  assert (Hsug : (gemini_client.get_suggestions w code_context st).1
                 = Ok (gemini_client.error_message e)).
  { apply get_suggestions_error; [|done|done].
    apply (scan_result_not_blank directory_path); [|done].
    by rewrite <- (analyze_codebase_result w directory_path st). }
  destruct (run_reaches_save directory_path code_context _ st
              Hval Hscan Hne Hsug) as [st_report Hrun].
  rewrite (Hrun _ (save_succeeds _ directory_path st_report Hm Hw)).
  split_and!; [done| |done| |apply report_has_suggestions].
  - rewrite (quota_hint_chosen e Hq Hk). apply str_in_spec.
    exists (py "❌ Error communicating with Gemini API: " ++ exn_str e), [].
    by rewrite app_nil_r.
  - cbn [snd log]. apply elem_of_app. right.
    apply elem_of_cons. right. apply elem_of_cons. by left.
Qed.

End orchestrator.

(** ** The properties on concrete worlds *)

Lemma aggregated_text_is_joined_blocks_witness :
  let fs := [Path_div (Path_of_str (py "proj")) (py "a.py")] in
  Forall (readable world_proj) fs /\ Forall named fs
  /\ (analyzer._aggregate_file_contents world_proj fs st0).1
     = Ok (str_join nl (block world_proj <$> List.filter (included world_proj) fs)).
Proof.
  intros fs.
  assert (Hr : Forall (readable world_proj) fs) by (by repeat constructor).
  assert (Hn : Forall named fs)
    by (repeat constructor; by vm_compute).
  split; [exact Hr | split; [exact Hn|]].
  exact (aggregated_text_is_joined_blocks world_proj fs st0 Hr Hn).
Defined.

Lemma utf8_len_replicate (n : nat) (c : N) :
  utf8_len (replicate n c) = N.of_nat n * utf8_width c.
Proof.
  induction n as [|n IH]; [done|].
  cbn [replicate]. unfold utf8_len in *. cbn [foldr]. rewrite IH. lia.
Qed.

Lemma utf8_len_big_content : 1024 * 1024 < utf8_len big_content.
Proof.
  unfold big_content. rewrite utf8_len_replicate, N2Nat.id. by vm_compute.
Qed.

Lemma read_big_file :
  open_read world_big (Path_div (Path_of_str (py "proj")) (py "big.py"))
  = Ok big_content.
Proof.
  change (read_big (Path_div (Path_of_str (py "proj")) (py "big.py"))
          = Ok big_content).
  unfold read_big. rewrite bool_decide_eq_true_2; [done | by vm_compute].
Qed.

Lemma oversized_file_is_skipped_witness :
  let root := Path_of_str (py "proj") in
  let f := Path_div root (py "big.py") in
  open_read world_big f = Ok big_content
  /\ 1024 * 1024 < utf8_len big_content
  /\ (analyzer._aggregate_file_contents world_big
        ([Path_div root (py "a.py")] ++ f :: [Path_div root (py "b.py")])
        st0).1
     = (analyzer._aggregate_file_contents world_big
          ([Path_div root (py "a.py")] ++ [Path_div root (py "b.py")])
          st0).1.
Proof.
  intros root f.
  pose proof read_big_file as Hf.
  split; [exact Hf | split; [exact utf8_len_big_content|]].
  exact (proj1 (proj2 (oversized_file_is_skipped world_big
    [Path_div root (py "a.py")] [Path_div root (py "b.py")] f big_content
    st0 Hf utf8_len_big_content))).
Defined.

Lemma blank_context_short_circuits_witness :
  blank (py "  ")
  /\ gemini_client.get_suggestions world_quota (py "  ") st0
     = (Ok gemini_client.no_content_message, st0).
Proof.
  assert (Hb : blank (py "  ")) by (vm_compute; repeat constructor).
  split; [exact Hb|].
  exact (proj1 (blank_context_short_circuits world_quota (py "  ") st0 Hb)).
Defined.

Lemma get_suggestions_returns_unless_interrupted_witness :
  (forall e,
     generate_content world_quota (py "gemini-2.5-pro")
       (gemini_client._build_analysis_prompt proj_context) = Raise e ->
     is_Exception e = true)
  /\ exists s,
       (gemini_client.get_suggestions world_quota proj_context st0).1 = Ok s.
Proof.
  assert (Hexc : forall e,
            generate_content world_quota (py "gemini-2.5-pro")
              (gemini_client._build_analysis_prompt proj_context) = Raise e ->
            is_Exception e = true).
  { intros e He. vm_compute in He. by injection He as <-. }
  split; [exact Hexc|].
  destruct (proj1 (get_suggestions_returns_unless_interrupted world_quota
                     proj_context st0) Hexc)
    as (s & Hs & _).
  by exists s.
Defined.

(** C4 as stated fails: the call is interrupted from the keyboard, which
    is a raised exception but not an [Exception]; [get_suggestions] raises
    it and returns no string. *)
Lemma get_suggestions_raises_counterexample :
  let e := Exn KeyboardInterrupt [] in
  generate_content world_interrupted (py "gemini-2.5-pro")
    (gemini_client._build_analysis_prompt proj_context) = Raise e
  /\ (gemini_client.get_suggestions world_interrupted proj_context st0).1
     = Raise e
  /\ ~ (exists s,
          (gemini_client.get_suggestions world_interrupted proj_context
             st0).1 = Ok s).
Proof.
  intros e.
  assert (Hr : (gemini_client.get_suggestions world_interrupted proj_context
                  st0).1 = Raise e) by (by vm_compute).
  split_and!; [by vm_compute | exact Hr |].
  intros [s Hs]. rewrite Hr in Hs. discriminate.
Qed.

(** C5 as stated fails: the error text contains ["quota"], but it also
    contains ["API_KEY"], whose hint is tried first; the quota hint is not
    in the returned string. *)
Lemma quota_hint_counterexample :
  let e := Exn OtherException (py "API_KEY quota exceeded") in
  generate_content world_quota_and_key (py "gemini-2.5-pro")
    (gemini_client._build_analysis_prompt proj_context) = Raise e
  /\ str_in (py "quota") (exn_str e) = true
  /\ exists s,
       (gemini_client.get_suggestions world_quota_and_key proj_context st0).1
       = Ok s
       /\ str_in (py "You may have exceeded your API quota") s = false
       /\ str_in (py "Make sure your GEMINI_API_KEY is set correctly") s
          = true.
Proof.
  split; [by vm_compute | split; [by vm_compute|]].
  eexists. split; [by vm_compute|]. split; by vm_compute.
Qed.

Lemma quota_error_is_hinted_and_reported_witness :
  let e := Exn OtherException (py "429 quota exceeded") in
  (gemini_client.validate_api_key world_quota st0).1 = Ok true
  /\ (analyzer.analyze_codebase world_quota (py "proj") st0).1
     = Ok proj_context
  /\ proj_context <> []
  /\ generate_content world_quota (py "gemini-2.5-pro")
       (gemini_client._build_analysis_prompt proj_context) = Raise e
  /\ is_Exception e = true
  /\ str_in (py "quota") (exn_str e) = true
  /\ str_in (py "API_KEY") (str_upper (exn_str e)) = false
  /\ path_mkdir world_quota report_dir = Ok ()
  /\ open_write world_quota (report_path world_quota)
       (report_of world_quota (py "proj") (gemini_client.error_message e))
     = Ok ()
  /\ (main.run world_quota (py "proj") st0).1 = Ok 0%Z
  /\ WriteFile (report_path world_quota)
       (report_of world_quota (py "proj") (gemini_client.error_message e))
     ∈ log (main.run world_quota (py "proj") st0).2.
Proof.
  intros e.
  assert (H1 : (gemini_client.validate_api_key world_quota st0).1 = Ok true)
    by (by vm_compute).
  assert (H2 : (analyzer.analyze_codebase world_quota (py "proj") st0).1
               = Ok proj_context) by (by vm_compute).
  assert (H3 : proj_context <> []) by (by vm_compute).
  assert (H4 : generate_content world_quota (py "gemini-2.5-pro")
                 (gemini_client._build_analysis_prompt proj_context)
               = Raise e) by (by vm_compute).
  assert (H5 : is_Exception e = true) by reflexivity.
  assert (H6 : str_in (py "quota") (exn_str e) = true) by (by vm_compute).
  assert (H7 : str_in (py "API_KEY") (str_upper (exn_str e)) = false)
    by (by vm_compute).
  assert (H8 : path_mkdir world_quota report_dir = Ok ()) by reflexivity.
  assert (H9 : open_write world_quota (report_path world_quota)
                 (report_of world_quota (py "proj")
                    (gemini_client.error_message e)) = Ok ())
    by reflexivity.
  destruct (quota_error_is_hinted_and_reported world_quota (py "proj")
              proj_context st0 e H1 H2 H3 H4 H5 H6 H7 H8 H9)
    as (_ & _ & Hrun & Hfile & _).
  repeat (split; [assumption|]). exact Hfile.
Defined.

Lemma report_write_failure_is_not_fatal_witness :
  let e := Exn PermissionError (py "[Errno 13] Permission denied") in
  let s := gemini_client.error_message
             (Exn OtherException (py "429 quota exceeded")) in
  (gemini_client.validate_api_key world_readonly st0).1 = Ok true
  /\ (analyzer.analyze_codebase world_readonly (py "proj") st0).1
     = Ok proj_context
  /\ proj_context <> []
  /\ (gemini_client.get_suggestions world_readonly proj_context st0).1 = Ok s
  /\ is_Exception e = true
  /\ (path_mkdir world_readonly report_dir = Ok () /\
      open_write world_readonly (report_path world_readonly)
        (report_of world_readonly (py "proj") s) = Raise e)
  /\ (main.run world_readonly (py "proj") st0).1 = Ok 0%Z
  /\ last (log (main.run world_readonly (py "proj") st0).2)
     = Some (Print (save_warning e)).
Proof.
  intros e s.
  assert (H1 : (gemini_client.validate_api_key world_readonly st0).1
               = Ok true) by (by vm_compute).
  assert (H2 : (analyzer.analyze_codebase world_readonly (py "proj") st0).1
               = Ok proj_context) by (by vm_compute).
  assert (H3 : proj_context <> []) by (by vm_compute).
  assert (H4 : (gemini_client.get_suggestions world_readonly proj_context
                  st0).1 = Ok s) by (by vm_compute).
  assert (H5 : is_Exception e = true) by reflexivity.
  assert (H6 : path_mkdir world_readonly report_dir = Ok () /\
               open_write world_readonly (report_path world_readonly)
                 (report_of world_readonly (py "proj") s) = Raise e)
    by (split; reflexivity).
  destruct (report_write_failure_is_not_fatal world_readonly (py "proj")
              proj_context s st0 e H1 H2 H3 H4 H5 (or_intror H6))
    as [Hrun Hlast].
  repeat (split; [assumption|]). exact Hlast.
Defined.

Lemma files_under_ignored_subdirectories_are_left_out_witness :
  exists text,
    (analyzer.analyze_codebase world_modules (py "proj") st0).1 = Ok text
    /\ text = str_join nl
                (block world_modules <$> List.filter (included world_modules)
                   (analyzer._find_source_files world_modules
                      (Path_of_str (py "proj"))))
    /\ str_in (py "x.js") text = false.
Proof.
  eexists. split; [by vm_compute|]. split.
  - apply (proj1 (proj2 (files_under_ignored_subdirectories_are_left_out
                           world_modules (py "proj") st0))).
    by vm_compute.
  - by vm_compute.
Defined.

(** * Further properties *)

(** ** analyzer.py: what the walk finds *)

Section walk_exact.
Context `{Unicode} (w : World).

Lemma scandir_files_spec (entries : list (pystr * node)) (name : pystr) :
  name ∈ analyzer.scandir_files entries <-> (name, File) ∈ entries.
Proof.
  unfold analyzer.scandir_files. rewrite list_elem_of_fmap. split.
  - intros ([name' child] & -> & Hin).
    apply list_elem_of_filter in Hin as [Hf Hin].
    cbn [fst snd] in *. by destruct child.
  - intros Hin. exists (name, File). split; [done|].
    by apply list_elem_of_filter.
Qed.

Lemma walk_subdirs_spec (root : Path) (entries : list (pystr * node))
    (p : Path) :
  p ∈ walk_subdirs root entries <->
  exists d child,
    (d, child) ∈ entries /\ is_Dir child = true
    /\ (d ∉ analyzer.IGNORED_DIRECTORIES)
    /\ p ∈ analyzer.walk (Path_div root d) child.
Proof.
  induction entries as [|[d child] entries IH]; cbn [walk_subdirs].
  - split; [intros Hp; by apply elem_of_nil in Hp|].
    intros (d & child & Hin & _). by apply elem_of_nil in Hin.
  - rewrite elem_of_app, IH. split.
    + intros [Hp|(d' & child' & Hin & Hrest)].
      * destruct (is_Dir child) eqn:Hdir; cbn [andb] in Hp;
          [|by apply elem_of_nil in Hp].
        case_bool_decide as Hd; [|by apply elem_of_nil in Hp].
        exists d, child. split; [by left | done].
      * exists d', child'. split; [by right | done].
    + intros (d' & child' & Hin & Hdir & Hd & Hp).
      apply elem_of_cons in Hin as [[= -> ->]|Hin].
      * left. rewrite Hdir. cbn [andb]. by rewrite bool_decide_eq_true_2.
      * right. by exists d', child'.
Qed.

Lemma walk_sound (n : node) :
  forall root p,
    p ∈ analyzer.walk root n ->
    exists dirs name,
      p = {| absolute := absolute root;
             parts := parts root ++ dirs ++ [name] |}
      /\ file_at n dirs name
      /\ Forall (fun d => d ∉ analyzer.IGNORED_DIRECTORIES) dirs
      /\ analyzer.is_source_file p = true.
Proof.
  induction n as [|entries IH] using node_ind_nested; intros root p Hp.
  - by apply elem_of_nil in Hp.
  - rewrite walk_Dir in Hp. apply elem_of_app in Hp as [Hp|Hp].
    + apply list_elem_of_filter in Hp as [Hsrc Hp].
      apply list_elem_of_fmap in Hp as (name & -> & Hname).
      apply scandir_files_spec in Hname.
      exists [], name. split_and!; [done | by constructor | constructor | done].
    + apply walk_subdirs_spec in Hp as (d & child & Hin & _ & Hd & Hp).
      rewrite Forall_forall in IH. apply (IH _ Hin) in Hp
        as (dirs & name & -> & Hfile & Hdirs & Hsrc).
      exists (d :: dirs), name. split_and!.
      * cbn [Path_div absolute parts]. by rewrite <- app_assoc.
      * by apply (file_below entries d child).
      * by constructor.
      * done.
Qed.

Lemma walk_complete (n : node) (dirs : list pystr) (name : pystr) :
  file_at n dirs name ->
  forall root,
    Forall (fun d => d ∉ analyzer.IGNORED_DIRECTORIES) dirs ->
    let p := {| absolute := absolute root;
                parts := parts root ++ dirs ++ [name] |} in
    analyzer.is_source_file p = true ->
    p ∈ analyzer.walk root n.
Proof.
  induction 1 as [entries name Hin|entries d child dirs name Hin Hfile IH];
    intros root Hdirs p Hsrc; rewrite walk_Dir; apply elem_of_app.
  - left. apply list_elem_of_filter. split; [done|].
    apply list_elem_of_fmap. exists name. split; [done|].
    by apply scandir_files_spec.
  - right. apply Forall_cons in Hdirs as [Hd Hdirs].
    apply walk_subdirs_spec. exists d, child. split_and!; [done| |done|].
    + by destruct Hfile.
    + specialize (IH (Path_div root d) Hdirs).
      cbn [Path_div absolute parts] in IH. rewrite <- app_assoc in IH.
      by apply IH.
Qed.

(** X1. The scan finds exactly the files of the tree that are reached from
    the scanned directory through directories outside the ignore set and
    whose lower-cased suffix is a supported extension. *)
Theorem find_source_files_exact (directory : Path) (n : node) (p : Path) :
  path_stat w directory = Some n ->
  p ∈ analyzer._find_source_files w directory <->
  exists dirs name,
    p = {| absolute := absolute directory;
           parts := parts directory ++ dirs ++ [name] |}
    /\ file_at n dirs name
    /\ Forall (fun d => d ∉ analyzer.IGNORED_DIRECTORIES) dirs
    /\ str_lower (Path_suffix p) ∈ analyzer.SUPPORTED_EXTENSIONS.
Proof.
  intros Hstat. unfold analyzer._find_source_files. rewrite Hstat. split.
  - intros Hp. apply walk_sound in Hp as (dirs & name & -> & Hf & Hd & Hs).
    exists dirs, name. split_and!; [done..|].
    by apply bool_decide_eq_true in Hs.
  - intros (dirs & name & -> & Hf & Hd & Hs).
    apply (walk_complete n dirs name Hf directory Hd).
    by apply bool_decide_eq_true.
Qed.

(** X2. Every file the scan finds gets its language from the table: the
    label is never [Unknown]. *)
Theorem found_files_have_a_language (directory p : Path) :
  p ∈ analyzer._find_source_files w directory ->
  analyzer.language_map !! str_lower (Path_suffix p)
  = Some (analyzer._get_language_from_extension (Path_suffix p))
  /\ analyzer._get_language_from_extension (Path_suffix p) <> py "Unknown".
Proof.
  unfold analyzer._find_source_files.
  destruct (path_stat w directory) as [n|];
    [|intros Hp; by apply elem_of_nil in Hp].
  intros Hp. apply walk_sound in Hp as (_ & _ & _ & _ & _ & Hs).
  apply bool_decide_eq_true in Hs.
  unfold analyzer._get_language_from_extension.
  unfold analyzer.SUPPORTED_EXTENSIONS in Hs.
  apply elem_of_list_to_set in Hs.
  repeat (apply elem_of_cons in Hs as [->|Hs];
          [split; by vm_compute|]).
  by apply elem_of_nil in Hs.
Qed.

End walk_exact.

(** ** analyzer.py: counters, skipped files and failures *)

Section counters.
Context `{Unicode} (w : World).

Lemma add_counters_0 (a : CodeAnalyzer) : add_counters a 0 0 = a.
Proof. destruct a. unfold add_counters. cbn. f_equal; lia. Qed.

Lemma add_counters_add (a : CodeAnalyzer) (c1 b1 c2 b2 : N) :
  add_counters (add_counters a c1 b1) c2 b2 = add_counters a (c1 + c2) (b1 + b2).
Proof. unfold add_counters. cbn. f_equal; lia. Qed.

Lemma step_counters_ok (p : Path) (a : CodeAnalyzer) :
  named p ->
  step_counters w p a
  = if included w p then add_counters a 1 (utf8_len (file_content w p))
    else a.
Proof.
  unfold named, step_counters. intros Hp.
  rewrite (bool_decide_eq_true_2 _ Hp). by rewrite andb_true_r.
Qed.

Lemma included_cons (p : Path) (l : list Path) :
  N.of_nat (length (included_files w (p :: l)))
  = (if included w p then 1 else 0) + N.of_nat (length (included_files w l))
  /\ included_bytes w (p :: l)
     = (if included w p then utf8_len (file_content w p) else 0)
       + included_bytes w l.
Proof.
  unfold included_bytes, included_files. cbn [List.filter].
  destruct (included w p); cbn [length foldr]; split; lia.
Qed.

Lemma loop_counters_ok (acc : list pystr) (l : list Path) (a : CodeAnalyzer) :
  Forall (readable w) l -> Forall named l ->
  loop_counters w acc l a
  = add_counters a (N.of_nat (length (included_files w l)))
      (included_bytes w l).
Proof.
  intros Hr. revert acc a. induction Hr as [|p l Hp _ IH]; intros acc a Hn.
  - cbn [loop_counters]. symmetry. apply add_counters_0.
  - apply Forall_cons in Hn as [Hnp Hn].
    cbn [loop_counters]. rewrite (step_result_ok w acc p Hp Hnp).
    rewrite (IH _ _ Hn), (step_counters_ok p a Hnp).
    destruct (included_cons p l) as [-> ->].
    destruct (included w p); [by rewrite add_counters_add|].
    by rewrite !N.add_0_l.
Qed.

Lemma included_bytes_bound (l : list Path) :
  included_bytes w l
  <= N.of_nat (length (included_files w l)) * (1024 * 1024).
Proof.
  induction l as [|p l IH]; [done|].
  destruct (included_cons p l) as [-> ->].
  destruct (included w p) eqn:Hinc; [|lia].
  assert (utf8_len (file_content w p) <= 1024 * 1024); [|lia].
  unfold included, file_content in *.
  destruct (open_read w p) as [c|e]; [|done].
  apply andb_true_iff in Hinc as [_ Hle]. by apply N.leb_le.
Qed.

(** X3. After [_aggregate_file_contents] on files that can be read,
    [files_analyzed] has grown by the number of included files and
    [total_size] by the bytes of their contents, which is at most 1 MiB for
    each of them. *)
Theorem counters_count_included_files (file_paths : list Path) (st : state) :
  Forall (readable w) file_paths -> Forall named file_paths ->
  analyzer (analyzer._aggregate_file_contents w file_paths st).2
  = add_counters (analyzer st)
      (N.of_nat (length (included_files w file_paths)))
      (included_bytes w file_paths)
  /\ included_bytes w file_paths
     <= N.of_nat (length (included_files w file_paths)) * (1024 * 1024).
Proof.
  intros Hr Hn. split; [|apply included_bytes_bound].
  rewrite (proj2 (aggregate_file_contents_spec w file_paths st)).
  by apply loop_counters_ok.
Qed.

(** X5. A file that is empty, or whose reading fails with
    [PermissionError] or [UnicodeDecodeError], is skipped like an oversized
    one: the aggregator returns the text and the counters it returns
    without the file. *)
Theorem unreadable_or_empty_file_is_skipped (before after : list Path)
    (f : Path) (st : state) :
  open_read w f = Ok []
  \/ (exists e, open_read w f = Raise e /\ is_read_error e = true) ->
  (analyzer._aggregate_file_contents w (before ++ f :: after) st).1
  = (analyzer._aggregate_file_contents w (before ++ after) st).1
  /\ analyzer (analyzer._aggregate_file_contents w (before ++ f :: after) st).2
     = analyzer (analyzer._aggregate_file_contents w (before ++ after) st).2.
Proof.
  intros Hf.
  assert (Hskip : included w f = false /\ readable w f).
  { unfold included, readable.
    destruct Hf as [->|(e & -> & He)]; [|done].
    split; [|done]. apply andb_false_iff. left.
    apply bool_decide_eq_false_2. intros Hx. by apply Hx. }
  destruct Hskip as [Hinc Hr].
  rewrite !(proj1 (aggregate_file_contents_spec w _ st)).
  rewrite !(proj2 (aggregate_file_contents_spec w _ st)).
  by destruct (loop_skips w before after f [] (analyzer st) Hinc Hr)
    as [-> ->].
Qed.

Lemma loop_app (acc : list pystr) (l1 l2 : list Path) (a : CodeAnalyzer) :
  loop_result w acc (l1 ++ l2)
  = match loop_result w acc l1 with
    | Ok acc' => loop_result w acc' l2
    | Raise e => Raise e
    end
  /\ loop_counters w acc (l1 ++ l2) a
     = match loop_result w acc l1 with
       | Ok acc' => loop_counters w acc' l2 (loop_counters w acc l1 a)
       | Raise _ => loop_counters w acc l1 a
       end.
Proof.
  revert acc a. induction l1 as [|p l1 IH]; intros acc a; [done|].
  cbn [app loop_result loop_counters].
  destruct (step_result w acc p) as [acc'|e]; [apply IH | done].
Qed.

(** X6. Any other failure of a read ends the scan: when the files before
    [f] can be read and reading [f] raises an exception that is neither a
    [PermissionError] nor a [UnicodeDecodeError], the aggregator raises
    that exception, the files after [f] are not read into the counters, and
    the counters are those after the files before [f]. *)
Theorem other_read_error_aborts (before after : list Path) (f : Path)
    (e : exn) (st : state) :
  Forall (readable w) before -> Forall named before ->
  open_read w f = Raise e -> is_read_error e = false ->
  (analyzer._aggregate_file_contents w (before ++ f :: after) st).1 = Raise e
  /\ analyzer (analyzer._aggregate_file_contents w (before ++ f :: after) st).2
     = analyzer (analyzer._aggregate_file_contents w before st).2.
Proof.
  intros Hr Hn Hf He.
  rewrite (proj1 (aggregate_file_contents_spec w _ st)).
  rewrite !(proj2 (aggregate_file_contents_spec w _ st)).
  destruct (loop_app [] before (f :: after) (analyzer st)) as [-> ->].
  rewrite (loop_result_ok w [] before Hr Hn).
  cbn [loop_result loop_counters].
  assert (Hs : forall acc, step_result w acc f = Raise e).
  { intros acc. unfold step_result. by rewrite Hf, He. }
  rewrite Hs. split; [done|].
  unfold step_counters, included. by rewrite Hf.
Qed.

End counters.

(** ** What each phase adds to the log *)

Lemma requests_made_app (l1 l2 : list event) :
  requests_made (l1 ++ l2) = requests_made l1 ++ requests_made l2.
Proof. apply omap_app. Qed.

Lemma files_written_app (l1 l2 : list event) :
  files_written (l1 ++ l2) = files_written l1 ++ files_written l2.
Proof. apply omap_app. Qed.

(** The log of a state after printing. *)
Lemma requests_made_print (l : list event) (s : pystr) :
  requests_made (l ++ [Print s]) = requests_made l.
Proof. rewrite requests_made_app. apply app_nil_r. Qed.

Lemma files_written_print (l : list event) (s : pystr) :
  files_written (l ++ [Print s]) = files_written l.
Proof. rewrite files_written_app. apply app_nil_r. Qed.

Lemma files_written_request (l : list event) (model contents : pystr) :
  files_written (l ++ [Request model contents]) = files_written l.
Proof. rewrite files_written_app. apply app_nil_r. Qed.

Lemma requests_made_request (l : list event) (model contents : pystr) :
  requests_made (l ++ [Request model contents])
  = requests_made l ++ [(model, contents)].
Proof. by rewrite requests_made_app. Qed.

Ltac effects :=
  cbn [fst snd log analyzer];
  repeat first
    [ rewrite requests_made_print | rewrite files_written_print
    | rewrite files_written_request | rewrite requests_made_request ].

(** Rewriting with what is known of the logs of intermediate states. *)
Ltac use_log_facts :=
  repeat (effects;
          match goal with
          | Hlog : requests_made (log ?s) = _ |- context [requests_made (log ?s)] =>
            rewrite Hlog
          | Hlog : files_written (log ?s) = _ |- context [files_written (log ?s)] =>
            rewrite Hlog
          end);
  effects.

Section phases.
Context `{Unicode} (w : World).

(** The analyzer only prints. *)
Lemma aggregate_step_quiet (acc : list pystr) (p : Path) (st : state) :
  requests_made (log (analyzer.aggregate_step w acc p st).2)
  = requests_made (log st)
  /\ files_written (log (analyzer.aggregate_step w acc p st).2)
     = files_written (log st).
Proof.
  unfold analyzer.aggregate_step, analyzer._read_file_content,
    Path_relative_to_last_parent.
  munfold. destruct (open_read w p) as [c|e]; msimpl.
  - destruct (1024 * 1024 <? utf8_len c); msimpl.
    + rewrite (bool_decide_eq_false_2 ([] <> [])) by (intros Hx; by apply Hx).
      by effects.
    + case_bool_decide; msimpl; [|done].
      destruct (parts p); msimpl; by cbn [is_read_error exn_cls].
  - destruct (is_read_error e); by effects.
Qed.

Lemma aggregate_loop_quiet (acc : list pystr) (l : list Path) (st : state) :
  requests_made (log (analyzer.aggregate_loop w acc l st).2)
  = requests_made (log st)
  /\ files_written (log (analyzer.aggregate_loop w acc l st).2)
     = files_written (log st).
Proof.
  revert acc st. induction l as [|p l IH]; intros acc st; [done|].
  cbn [analyzer.aggregate_loop]. unfold mbind, M_bind.
  destruct (aggregate_step_quiet acc p st) as [Hr Hf].
  destruct (analyzer.aggregate_step w acc p st) as [[acc'|e] st'];
    cbn [snd] in Hr, Hf; rewrite <- Hr, <- Hf; [apply IH | done].
Qed.

Lemma analyze_codebase_quiet (directory_path : pystr) (st : state) :
  requests_made (log (analyzer.analyze_codebase w directory_path st).2)
  = requests_made (log st)
  /\ files_written (log (analyzer.analyze_codebase w directory_path st).2)
     = files_written (log st).
Proof.
  unfold analyzer.analyze_codebase, analyzer._find_source_files,
    analyzer._aggregate_file_contents.
  destruct (path_stat w (Path_of_str directory_path)) as [[|entries]|];
    [done| |done].
  munfold. msimpl.
  destruct (analyzer.walk (Path_of_str directory_path) (Dir entries))
    as [|p l]; msimpl; [by effects|].
  match goal with
  | |- context [analyzer.aggregate_loop w ?acc ?fs ?s] =>
    destruct (aggregate_loop_quiet acc fs s) as [Hr Hf];
    destruct (analyzer.aggregate_loop w acc fs s) as [[t|e] st']
  end; cbn [snd] in Hr, Hf; msimpl; effects; rewrite Hr, Hf; by effects.
Qed.

(** The counters after a scan. *)
Lemma analyze_codebase_counters (directory_path : pystr)
    (entries : list (pystr * node)) (st : state) :
  path_stat w (Path_of_str directory_path) = Some (Dir entries) ->
  analyzer (analyzer.analyze_codebase w directory_path st).2
  = loop_counters w []
      (analyzer._find_source_files w (Path_of_str directory_path))
      (analyzer st).
Proof.
  unfold analyzer.analyze_codebase, analyzer._find_source_files.
  intros ->. munfold. msimpl.
  destruct (analyzer.walk (Path_of_str directory_path) (Dir entries))
    as [|p l]; msimpl; [done|].
  match goal with
  | |- context [analyzer._aggregate_file_contents w ?fs ?s] =>
    destruct (aggregate_file_contents_spec w fs s) as [_ Hc];
    destruct (analyzer._aggregate_file_contents w fs s) as [[t|e] st']
  end; cbn [snd] in Hc; msimpl; by rewrite Hc.
Qed.

(** X4. The counters are never reset: a scan of a directory whose files can
    be read adds the number and the bytes of the included files to what the
    counters held, so a second scan with the same analyzer leaves twice
    that on top of the initial values. *)
Theorem scan_counters_accumulate (directory_path : pystr)
    (entries : list (pystr * node)) (st : state) :
  let files := analyzer._find_source_files w (Path_of_str directory_path) in
  let count := N.of_nat (length (included_files w files)) in
  let bytes := included_bytes w files in
  path_stat w (Path_of_str directory_path) = Some (Dir entries) ->
  Forall (readable w) files ->
  analyzer (analyzer.analyze_codebase w directory_path st).2
  = add_counters (analyzer st) count bytes
  /\ analyzer (analyzer.analyze_codebase w directory_path
       (analyzer.analyze_codebase w directory_path st).2).2
     = add_counters (analyzer st) (2 * count) (2 * bytes).
Proof.
  intros files count bytes Hstat Hr.
  assert (Hn : Forall named files).
  { apply Forall_forall. intros p Hp.
    unfold files, analyzer._find_source_files in Hp. rewrite Hstat in Hp.
    by eapply walk_named. }
  rewrite !(analyze_codebase_counters directory_path entries _ Hstat).
  fold files. rewrite !(loop_counters_ok w [] files _ Hr Hn).
  split; [done|]. rewrite add_counters_add. fold count bytes.
  f_equal; lia.
Qed.

End phases.

(** ** Stripping *)

Lemma lstrip_head (s : pystr) (c : N) (r : pystr) :
  lstrip s = c :: r -> isspace c = false.
Proof.
  induction s as [|x s IH]; cbn [lstrip]; [done|].
  destruct (isspace x) eqn:Hx; [done|]. by intros [= <- _].
Qed.

Lemma lstrip_fixed (c : N) (r : pystr) :
  isspace c = false -> lstrip (c :: r) = c :: r.
Proof. intros Hc. cbn [lstrip]. by rewrite Hc. Qed.

Lemma lstrip_idem (s : pystr) : lstrip (lstrip s) = lstrip s.
Proof.
  destruct (lstrip s) as [|c r] eqn:Hs; [done|].
  apply lstrip_fixed. by apply (lstrip_head s c r).
Qed.

Lemma lstrip_blank_app (a s : pystr) : blank a -> lstrip (a ++ s) = lstrip s.
Proof.
  induction 1 as [|c a Hc _ IH]; [done|]. cbn [app lstrip]. by rewrite Hc.
Qed.

Lemma lstrip_app_not_blank (s b : pystr) :
  ~ blank s -> lstrip (s ++ b) = lstrip s ++ b.
Proof.
  induction s as [|c s IH]; intros Hs.
  - destruct Hs. constructor.
  - cbn [app lstrip]. destruct (isspace c) eqn:Hc; [|done].
    apply IH. intros Hb. apply Hs. by constructor.
Qed.

Lemma rstrip_blank_app (s b : pystr) : blank b -> rstrip (s ++ b) = rstrip s.
Proof.
  intros Hb. unfold rstrip. rewrite rev_app_distr.
  rewrite lstrip_blank_app; [done|]. by apply blank_rev.
Qed.

Lemma rstrip_idem (s : pystr) : rstrip (rstrip s) = rstrip s.
Proof. unfold rstrip. by rewrite rev_involutive, lstrip_idem. Qed.

Lemma rstrip_cons (c : N) (r : pystr) :
  isspace c = false -> rstrip (c :: r) = c :: rstrip r.
Proof.
  intros Hc. unfold rstrip. cbn [rev].
  assert (Hl : forall l, lstrip (l ++ [c]) = lstrip l ++ [c]).
  { intros l. induction l as [|x l IH]; cbn [app lstrip]; [by rewrite Hc|].
    by destruct (isspace x). }
  rewrite Hl, rev_app_distr. done.
Qed.

Lemma strip_idem (s : pystr) : strip (strip s) = strip s.
Proof.
  unfold strip. destruct (lstrip s) as [|c r] eqn:Hs; [done|].
  pose proof (lstrip_head s c r Hs) as Hc.
  rewrite (rstrip_cons c r Hc), (lstrip_fixed c _ Hc).
  by rewrite <- (rstrip_cons c r Hc), rstrip_idem.
Qed.

Lemma strip_head (s : pystr) (c : N) (r : pystr) :
  strip s = c :: r -> isspace c = false.
Proof.
  unfold strip. destruct (lstrip s) as [|x t] eqn:Hs; [done|].
  pose proof (lstrip_head s x t Hs) as Hx.
  rewrite (rstrip_cons x t Hx). by intros [= <- _].
Qed.

Lemma strip_last (s : pystr) (c : N) :
  last (strip s) = Some c -> isspace c = false.
Proof.
  unfold strip, rstrip. intros Hl.
  destruct (lstrip (rev (lstrip s))) as [|x t] eqn:Hs; [done|].
  cbn [rev] in Hl. rewrite last_snoc in Hl. injection Hl as <-.
  by apply (lstrip_head _ x t Hs).
Qed.

Lemma strip_blank_around (a s b : pystr) :
  blank a -> blank b -> strip (a ++ s ++ b) = strip s.
Proof.
  intros Ha Hb. unfold strip. rewrite (lstrip_blank_app a _ Ha).
  destruct (decide (blank s)) as [Hs|Hs].
  - rewrite (lstrip_blank s Hs).
    by rewrite (lstrip_blank (s ++ b)) by (by apply blank_app).
  - by rewrite (lstrip_app_not_blank s b Hs), (rstrip_blank_app _ b Hb).
Qed.

(** ** config.py: the stored key *)

(** X7. A configuration that is constructed holds the stripped value of
    the variable: stripping it again changes nothing, and it neither starts
    nor ends with white space. *)
Theorem stored_key_is_stripped (getenv : option pystr) (c : config.Config) :
  config.Config_init getenv = Ok c ->
  (exists s, getenv = Some s /\ s <> [] /\ config.api_key c = strip s)
  /\ strip (config.api_key c) = config.api_key c
  /\ (forall ch rest, config.api_key c = ch :: rest -> isspace ch = false)
  /\ (forall ch, last (config.api_key c) = Some ch -> isspace ch = false).
Proof.
  unfold config.Config_init, config._get_gemini_api_key, config.api_key.
  destruct getenv as [[|x s]|]; [done| |done].
  intros [= <-]. cbn [config.gemini_api_key]. split_and!.
  - by exists (x :: s).
  - apply strip_idem.
  - intros ch rest. apply strip_head.
  - intros ch. apply strip_last.
Qed.

(** ** gemini_client.py *)

Section client_more.
Context `{Unicode} (w : World).

(** X8. [_format_response] ignores white space around the response text:
    the result is the banner, the stripped text and the footer. *)
Theorem format_response_strips (a response_text b : pystr) :
  blank a -> blank b ->
  gemini_client._format_response (a ++ response_text ++ b)
  = response_banner ++ strip response_text ++ response_footer.
Proof.
  intros Ha Hb. unfold gemini_client._format_response, response_banner,
    response_footer.
  rewrite (strip_blank_around a response_text b Ha Hb).
  by rewrite <- !app_assoc.
Qed.

(** X9. The error message of [get_suggestions] is the error line, which
    holds [str(e)] as it is, followed by at most one hint; the API-key hint
    is given whenever the upper-cased text contains ["API_KEY"], whatever
    else the text contains, and no hint is given when the text has none of
    the three key words. *)
Theorem error_message_shape (e : exn) :
  (gemini_client.error_message e = error_line e
   \/ gemini_client.error_message e = error_line e ++ gemini_client.api_key_hint
   \/ gemini_client.error_message e = error_line e ++ gemini_client.quota_hint
   \/ gemini_client.error_message e
      = error_line e ++ gemini_client.network_hint)
  /\ str_in (exn_str e) (gemini_client.error_message e) = true
  /\ (str_in (py "API_KEY") (str_upper (exn_str e)) = true ->
      gemini_client.error_message e
      = error_line e ++ gemini_client.api_key_hint)
  /\ (str_in (py "API_KEY") (str_upper (exn_str e)) = false ->
      str_in (py "quota") (str_lower (exn_str e)) = false ->
      str_in (py "network") (str_lower (exn_str e)) = false ->
      gemini_client.error_message e = error_line e).
Proof.
  unfold gemini_client.error_message, error_line.
  split_and!.
  - destruct (str_in (py "API_KEY") _); [right; left; reflexivity|].
    destruct (str_in (py "quota") _); [right; right; left; reflexivity|].
    destruct (str_in (py "network") _);
      [right; right; right; reflexivity | left; reflexivity].
  - assert (Hin : forall prefix hint : pystr,
              str_in (exn_str e) ((prefix ++ exn_str e) ++ hint) = true).
    { intros prefix hint. rewrite <- app_assoc.
      apply str_in_app_r, str_in_prefix. }
    destruct (str_in (py "API_KEY") _); [apply Hin|].
    destruct (str_in (py "quota") _); [apply Hin|].
    destruct (str_in (py "network") _); [apply Hin|].
    apply str_in_app_r, str_in_spec. exists [], [].
    by rewrite app_nil_r.
  - intros Hk. rewrite Hk. reflexivity.
  - intros Hk Hq Hn. rewrite Hk, Hq, Hn. reflexivity.
Qed.

Lemma validate_api_key_cases (st : state) :
  (gemini_client.validate_api_key w st).2
  = {| analyzer := analyzer st;
       log := log st ++ [Request (py "gemini-2.5-flash")
                           gemini_client.test_prompt] |}
  /\ ((forall e,
         generate_content w (py "gemini-2.5-flash") gemini_client.test_prompt
         = Raise e -> is_Exception e = true) ->
      (gemini_client.validate_api_key w st).1
      = Ok (has_text (generate_content w (py "gemini-2.5-flash")
                        gemini_client.test_prompt))).
Proof.
  unfold gemini_client.validate_api_key, gemini_client.call_generate_content.
  munfold. msimpl.
  destruct (generate_content w _ _) as [[[|c t]|]|e]; msimpl;
    try (split; done).
  destruct (is_Exception e) eqn:He; split; try done.
  intros Hexc. by rewrite (Hexc e eq_refl) in He.
Qed.

(** X10. [validate_api_key] makes one request, to [gemini-2.5-flash] with
    the test prompt, and prints nothing. Unless it is interrupted it
    returns a boolean: [True] exactly when the response has a non-empty
    text, [False] for a response without text and for every
    [Exception]. *)
Theorem validate_api_key_spec (st : state) :
  let outcome := generate_content w (py "gemini-2.5-flash")
                   gemini_client.test_prompt in
  (gemini_client.validate_api_key w st).2
  = {| analyzer := analyzer st;
       log := log st ++ [Request (py "gemini-2.5-flash")
                           gemini_client.test_prompt] |}
  /\ ((forall e, outcome = Raise e -> is_Exception e = true) ->
      (gemini_client.validate_api_key w st).1 = Ok (has_text outcome)).
Proof. apply validate_api_key_cases. Qed.

Lemma get_suggestions_requests (code_context : pystr) (st : state) :
  ~ blank code_context ->
  requests_made (log (gemini_client.get_suggestions w code_context st).2)
  = requests_made (log st) ++ [analysis_request code_context]
  /\ files_written (log (gemini_client.get_suggestions w code_context st).2)
     = files_written (log st)
  /\ analyzer (gemini_client.get_suggestions w code_context st).2
     = analyzer st.
Proof.
  intros Hnb.
  unfold gemini_client.get_suggestions, gemini_client.call_generate_content,
    analysis_request.
  rewrite bool_decide_eq_false_2 by (by rewrite strip_nil_iff).
  munfold. msimpl.
  destruct (generate_content w _ _) as [[[|c t]|]|e]; msimpl;
    try (destruct (is_Exception e); msimpl); effects; done.
Qed.

Lemma get_suggestions_blank (code_context : pystr) (st : state) :
  blank code_context ->
  gemini_client.get_suggestions w code_context st
  = (Ok gemini_client.no_content_message, st).
Proof.
  intros Hb. unfold gemini_client.get_suggestions.
  by rewrite bool_decide_eq_true_2 by (by apply strip_nil_iff).
Qed.

(** X11. On an input that is not blank [get_suggestions] makes exactly one
    request, to [gemini-2.5-pro], whose prompt is ["Codebase: "] followed
    by the input as it is, whatever the outcome of the call; it writes no
    file and leaves the counters alone. *)
Theorem get_suggestions_makes_one_request (code_context : pystr)
    (st : state) :
  ~ blank code_context ->
  requests_made (log (gemini_client.get_suggestions w code_context st).2)
  = requests_made (log st)
    ++ [(py "gemini-2.5-pro", py "Codebase: " ++ code_context)]
  /\ files_written (log (gemini_client.get_suggestions w code_context st).2)
     = files_written (log st)
  /\ analyzer (gemini_client.get_suggestions w code_context st).2
     = analyzer st.
Proof. apply get_suggestions_requests. Qed.

End client_more.

(** ** main.py: the paths of a run *)

Section run_paths.
Context `{Unicode} (w : World).

Lemma caught_or_uncaught (e : exn) :
  is_KeyboardInterrupt e || is_Exception e = negb (uncaught e).
Proof. unfold uncaught. by rewrite negb_involutive. Qed.

Lemma interrupt_is_caught (e : exn) :
  is_KeyboardInterrupt e = true -> uncaught e = false.
Proof. unfold uncaught. by intros ->. Qed.

Lemma Exception_is_caught (e : exn) :
  is_Exception e = true -> uncaught e = false.
Proof. unfold uncaught. intros ->. by rewrite orb_true_r. Qed.

Lemma uncaught_cases (e : exn) :
  uncaught e = true ->
  is_KeyboardInterrupt e = false /\ is_Exception e = false.
Proof.
  unfold uncaught. destruct (is_KeyboardInterrupt e), (is_Exception e); done.
Qed.

Lemma validate_environment_spec (st : state) :
  (main._validate_environment w st).1
  = (gemini_client.validate_api_key w st).1
  /\ requests_made (log (main._validate_environment w st).2)
     = requests_made (log st) ++ [validation_request]
  /\ files_written (log (main._validate_environment w st).2)
     = files_written (log st)
  /\ analyzer (main._validate_environment w st).2 = analyzer st.
Proof.
  unfold main._validate_environment. munfold. msimpl.
  match goal with
  | |- context [gemini_client.validate_api_key w ?s] =>
    rewrite (validate_api_key_result w st s);
    pose proof (proj1 (validate_api_key_cases w s)) as Hst;
    destruct (gemini_client.validate_api_key w s) as [[[|]|e] st']
  end; cbn [fst snd] in *; subst st'; msimpl; effects; done.
Qed.

Lemma get_suggestions_effects (code_context : pystr) (st : state) :
  (requests_made (log (gemini_client.get_suggestions w code_context st).2)
   = requests_made (log st)
   \/ requests_made (log (gemini_client.get_suggestions w code_context st).2)
      = requests_made (log st) ++ [analysis_request code_context])
  /\ files_written (log (gemini_client.get_suggestions w code_context st).2)
     = files_written (log st).
Proof.
  destruct (decide (blank code_context)) as [Hb|Hnb].
  - rewrite (get_suggestions_blank w code_context st Hb).
    auto.
  - destruct (get_suggestions_requests w code_context st Hnb)
      as (Hr & Hf & _). auto.
Qed.

Lemma save_effects (suggestions directory_path : pystr) (st : state) :
  requests_made
    (log (main._save_suggestions_to_file w suggestions directory_path st).2)
  = requests_made (log st)
  /\ (files_written
        (log (main._save_suggestions_to_file w suggestions directory_path
                st).2)
      = files_written (log st)
      \/ ((main._save_suggestions_to_file w suggestions directory_path st).1
          = Ok ()
          /\ files_written
               (log (main._save_suggestions_to_file w suggestions
                       directory_path st).2)
             = files_written (log st)
               ++ [(report_path w, report_of w directory_path suggestions)])).
Proof.
  unfold report_path, report_of, report_dir.
  unfold main._save_suggestions_to_file. munfold.
  destruct (path_mkdir w _) as [[]|e]; msimpl.
  - destruct (open_write w _ _) as [[]|e]; msimpl.
    + effects. rewrite !files_written_app, !requests_made_app.
      cbn. rewrite !app_nil_r. auto.
    + destruct (is_Exception e); msimpl; effects;
        rewrite !files_written_app, !requests_made_app; cbn;
        rewrite !app_nil_r; auto.
  - destruct (is_Exception e); msimpl; effects; auto.
Qed.

Lemma run_effects (directory_path : pystr) (st : state) :
  ((main.run w directory_path st).1 = Ok 0%Z
   \/ (main.run w directory_path st).1 = Ok 1%Z
   \/ exists e, (main.run w directory_path st).1 = Raise e
                /\ uncaught e = true)
  /\ (requests_made (log (main.run w directory_path st).2)
      = requests_made (log st) ++ [validation_request]
      \/ exists code_context,
           requests_made (log (main.run w directory_path st).2)
           = requests_made (log st)
             ++ [validation_request; analysis_request code_context])
  /\ (files_written (log (main.run w directory_path st).2)
      = files_written (log st)
      \/ ((main.run w directory_path st).1 = Ok 0%Z
          /\ exists suggestions,
               files_written (log (main.run w directory_path st).2)
               = files_written (log st)
                 ++ [(report_path w,
                      report_of w directory_path suggestions)])).
Proof.
  unfold main.run, main._print_header. munfold. msimpl.
  match goal with
  | |- context [main._validate_environment w ?s] =>
    destruct (validate_environment_spec s) as (_ & Hr1 & Hf1 & _);
    destruct (main._validate_environment w s) as [[[|]|e1] st1]
  end; cbn [fst snd] in Hr1, Hf1; msimpl.
  2:{ use_log_facts. auto. }
  2:{ rewrite caught_or_uncaught.
      destruct (uncaught e1) eqn:Hu; cbn [negb];
        [|destruct (is_KeyboardInterrupt e1)]; msimpl;
        use_log_facts; eauto 10. }
  match goal with
  | |- context [analyzer.analyze_codebase w directory_path ?s] =>
    destruct (analyze_codebase_quiet w directory_path s) as [Hr2 Hf2];
    destruct (analyzer.analyze_codebase w directory_path s)
      as [[code_context|e2] st2]
  end; cbn [fst snd] in Hr2, Hf2; msimpl.
  2:{ rewrite caught_or_uncaught.
      destruct (uncaught e2) eqn:Hu; cbn [negb];
        [|destruct (is_KeyboardInterrupt e2)]; msimpl;
        use_log_facts; eauto 10. }
  case_bool_decide as Hctx; msimpl.
  { use_log_facts. auto. }
  match goal with
  | |- context [gemini_client.get_suggestions w code_context ?s] =>
    destruct (get_suggestions_effects code_context s) as [Hr3 Hf3];
    destruct (gemini_client.get_suggestions w code_context s)
      as [[suggestions|e3] st3]
  end; cbn [fst snd] in Hr3, Hf3; msimpl.
  2:{ rewrite caught_or_uncaught.
      destruct (uncaught e3) eqn:Hu; cbn [negb];
        [|destruct (is_KeyboardInterrupt e3)]; msimpl;
        destruct Hr3 as [Hr3|Hr3];
        use_log_facts; rewrite <- ?app_assoc; split_and!; eauto 10. }
  match goal with
  | |- context [main._save_suggestions_to_file w suggestions directory_path ?s] =>
    destruct (save_effects suggestions directory_path s) as [Hr4 Hf4];
    destruct (main._save_suggestions_to_file w suggestions directory_path s)
      as [[[]|e4] st4]
  end; cbn [fst snd] in Hr4, Hf4; msimpl.
  - destruct Hr3 as [Hr3|Hr3]; destruct Hf4 as [Hf4|[_ Hf4]];
      use_log_facts; rewrite <- ?app_assoc; split_and!; eauto.
  - rewrite caught_or_uncaught.
    destruct (uncaught e4) eqn:Hu; cbn [negb];
      [|destruct (is_KeyboardInterrupt e4)]; msimpl;
      destruct Hr3 as [Hr3|Hr3];
      (destruct Hf4 as [Hf4|[[=] _]]);
      use_log_facts; rewrite <- ?app_assoc; split_and!; eauto 10.
Qed.

(** An exception of the credential check that [run] does not catch leaves
    [run]. *)
Lemma run_passes_on (directory_path : pystr) (st : state) (e : exn) :
  (gemini_client.validate_api_key w st).1 = Raise e ->
  uncaught e = true ->
  (main.run w directory_path st).1 = Raise e.
Proof.
  intros Hval Hu.
  unfold main.run, main._print_header. munfold. msimpl.
  match goal with
  | |- context [main._validate_environment w ?s] =>
    rewrite (result_with_state _ _
               (eq_trans (proj1 (validate_environment_spec s))
                  (eq_trans (validate_api_key_result w s st) Hval)))
  end.
  rewrite caught_or_uncaught, Hu. reflexivity.
Qed.

End run_paths.

Section run_theorems.
Context `{Unicode} (w : World).

(** X12. [run] returns 0 or 1, or it raises an exception that is neither
    a [KeyboardInterrupt] nor an [Exception] (a [SystemExit], say), which
    its two handlers let through; it does so when the credential check
    raises one. Whatever the outcome, it makes the validation request and
    at most one analysis request after it, and it writes at most one file,
    the report, and then only when it returns 0. *)
Theorem run_outcomes_and_effects (directory_path : pystr) (st : state) :
  ((main.run w directory_path st).1 = Ok 0%Z
   \/ (main.run w directory_path st).1 = Ok 1%Z
   \/ exists e, (main.run w directory_path st).1 = Raise e
                /\ uncaught e = true)
  /\ (forall e,
        (gemini_client.validate_api_key w st).1 = Raise e ->
        uncaught e = true ->
        (main.run w directory_path st).1 = Raise e)
  /\ (requests_made (log (main.run w directory_path st).2)
      = requests_made (log st) ++ [validation_request]
      \/ exists code_context,
           requests_made (log (main.run w directory_path st).2)
           = requests_made (log st)
             ++ [validation_request; analysis_request code_context])
  /\ (files_written (log (main.run w directory_path st).2)
      = files_written (log st)
      \/ ((main.run w directory_path st).1 = Ok 0%Z
          /\ exists suggestions,
               files_written (log (main.run w directory_path st).2)
               = files_written (log st)
                 ++ [(report_path w,
                      report_of w directory_path suggestions)])).
Proof.
  destruct (run_effects w directory_path st) as (Hout & Hreq & Hfiles).
  split_and!; [exact Hout | | exact Hreq | exact Hfiles].
  intros e. apply run_passes_on.
Qed.

Lemma venv_requests (st : state) :
  requests_made (log (main._validate_environment w st).2)
  = requests_made (log st) ++ [validation_request].
Proof. apply validate_environment_spec. Qed.

Lemma venv_files (st : state) :
  files_written (log (main._validate_environment w st).2)
  = files_written (log st).
Proof. apply validate_environment_spec. Qed.

Lemma analyze_requests (directory_path : pystr) (st : state) :
  requests_made (log (analyzer.analyze_codebase w directory_path st).2)
  = requests_made (log st).
Proof. apply analyze_codebase_quiet. Qed.

Lemma analyze_files (directory_path : pystr) (st : state) :
  files_written (log (analyzer.analyze_codebase w directory_path st).2)
  = files_written (log st).
Proof. apply analyze_codebase_quiet. Qed.

Ltac chase_log :=
  repeat first
    [ progress effects
    | rewrite venv_requests | rewrite venv_files
    | rewrite analyze_requests | rewrite analyze_files ].

(** X13. When the credential check answers [False], the run stops there:
    it returns 1 having printed the header and the check, made the one
    validation request and printed the failure; nothing is scanned. *)
Theorem failed_validation_stops_the_run (directory_path : pystr)
    (st : state) :
  (gemini_client.validate_api_key w st).1 = Ok false ->
  main.run w directory_path st
  = (Ok 1%Z,
     {| analyzer := analyzer st; log := log st ++ failed_validation_log |}).
Proof.
  intros Hval. unfold main.run, main._print_header, main._validate_environment.
  munfold. msimpl.
  match goal with
  | |- context [gemini_client.validate_api_key w ?s] =>
    rewrite (validate_api_key_result w st s) in Hval;
    pose proof (proj1 (validate_api_key_cases w s)) as Hst;
    destruct (gemini_client.validate_api_key w s) as [r st']
  end.
  cbn [fst snd] in Hval, Hst. subst r st'. msimpl.
  unfold failed_validation_log. by rewrite <- !app_assoc.
Qed.

(** X14. When the scan raises, for instance because the directory does not
    exist or is not a directory, the run returns 1 and the last thing it
    prints is the message of the handler that caught the exception; an
    exception that neither handler catches leaves the run. Either way it
    has made the validation request only and written no file. *)
Theorem failed_scan_ends_the_run (directory_path : pystr) (st : state)
    (e : exn) :
  (gemini_client.validate_api_key w st).1 = Ok true ->
  (analyzer.analyze_codebase w directory_path st).1 = Raise e ->
  (main.run w directory_path st).1
  = (if uncaught e then Raise e else Ok 1%Z)
  /\ (uncaught e = false ->
      last (log (main.run w directory_path st).2)
      = Some (Print (handler_message e)))
  /\ requests_made (log (main.run w directory_path st).2)
     = requests_made (log st) ++ [validation_request]
  /\ files_written (log (main.run w directory_path st).2)
     = files_written (log st).
Proof.
  intros Hval Hscan. rewrite analyze_codebase_result in Hscan.
  unfold main.run, main._print_header. munfold. msimpl.
  match goal with
  | |- context [main._validate_environment w ?s] =>
    rewrite (result_with_state _ _ (validate_environment_ok w s
               (eq_trans (validate_api_key_result w s st) Hval)))
  end.
  msimpl.
  match goal with
  | |- context [analyzer.analyze_codebase w directory_path ?s] =>
    rewrite (result_with_state _ _
               (eq_trans (analyze_codebase_result w directory_path s) Hscan))
  end.
  rewrite caught_or_uncaught. unfold handler_message, interrupted_message,
    unexpected_error_message.
  destruct (uncaught e); cbn [negb].
  - split_and!; [done | done | by chase_log | by chase_log].
  - destruct (is_KeyboardInterrupt e); msimpl;
      (split_and!;
         [done | intros _; apply last_snoc | by chase_log | by chase_log]).
Qed.

(** X15. When the scan returns no text (no source file, or none that is
    included), the run returns 1; the last thing it prints is the guidance
    message; it has made the validation request only and written no
    file. *)
Theorem empty_scan_ends_the_run (directory_path : pystr) (st : state) :
  (gemini_client.validate_api_key w st).1 = Ok true ->
  (analyzer.analyze_codebase w directory_path st).1 = Ok [] ->
  (main.run w directory_path st).1 = Ok 1%Z
  /\ last (log (main.run w directory_path st).2)
     = Some (Print no_code_message)
  /\ requests_made (log (main.run w directory_path st).2)
     = requests_made (log st) ++ [validation_request]
  /\ files_written (log (main.run w directory_path st).2)
     = files_written (log st).
Proof.
  intros Hval Hscan. rewrite analyze_codebase_result in Hscan.
  unfold main.run, main._print_header. munfold. msimpl.
  match goal with
  | |- context [main._validate_environment w ?s] =>
    rewrite (result_with_state _ _ (validate_environment_ok w s
               (eq_trans (validate_api_key_result w s st) Hval)))
  end.
  msimpl.
  match goal with
  | |- context [analyzer.analyze_codebase w directory_path ?s] =>
    rewrite (result_with_state _ _
               (eq_trans (analyze_codebase_result w directory_path s) Hscan))
  end.
  rewrite bool_decide_eq_true_2 by done. msimpl. unfold no_code_message.
  split_and!; [done | apply last_snoc | by chase_log | by chase_log].
Qed.


Lemma get_suggestions_text (code_context : pystr) (st : state) (t : pystr) :
  ~ blank code_context ->
  generate_content w (py "gemini-2.5-pro")
    (gemini_client._build_analysis_prompt code_context) = Ok (Some t) ->
  t <> [] ->
  (gemini_client.get_suggestions w code_context st).1
  = Ok (gemini_client._format_response t).
Proof.
  intros Hnb Hout Ht.
  unfold gemini_client.get_suggestions, gemini_client.call_generate_content.
  rewrite bool_decide_eq_false_2 by (by rewrite strip_nil_iff).
  munfold. msimpl. rewrite Hout. msimpl. by destruct t.
Qed.

Lemma get_suggestions_interrupted (code_context : pystr) (st : state)
    (e : exn) :
  ~ blank code_context ->
  generate_content w (py "gemini-2.5-pro")
    (gemini_client._build_analysis_prompt code_context) = Raise e ->
  is_Exception e = false ->
  (gemini_client.get_suggestions w code_context st).1 = Raise e
  /\ files_written (log (gemini_client.get_suggestions w code_context st).2)
     = files_written (log st).
Proof.
  intros Hnb Hout He.
  unfold gemini_client.get_suggestions, gemini_client.call_generate_content.
  rewrite bool_decide_eq_false_2 by (by rewrite strip_nil_iff).
  munfold. msimpl. rewrite Hout. msimpl. rewrite He. by effects.
Qed.

(** A run that gets to the report prints the suggestions, then saves. *)
Lemma run_prints_then_saves
    (directory_path code_context suggestions : pystr) (st : state) :
  (gemini_client.validate_api_key w st).1 = Ok true ->
  (analyzer.analyze_codebase w directory_path st).1 = Ok code_context ->
  code_context <> [] ->
  (gemini_client.get_suggestions w code_context st).1 = Ok suggestions ->
  exists st_before,
    forall st_end,
      main._save_suggestions_to_file w suggestions directory_path
        {| analyzer := analyzer st_before;
           log := log st_before ++ [Print suggestions] |}
      = (Ok (), st_end) ->
      main.run w directory_path st = (Ok 0%Z, st_end).
Proof.
  intros Hval Hscan Hne Hsug. eexists. intros st_end Hsave.
  rewrite analyze_codebase_result in Hscan.
  unfold main.run, main._print_header. munfold. msimpl.
  match goal with
  | |- context [main._validate_environment w ?s] =>
    rewrite (result_with_state _ _ (validate_environment_ok w s
               (eq_trans (validate_api_key_result w s st) Hval)))
  end.
  msimpl.
  match goal with
  | |- context [analyzer.analyze_codebase w directory_path ?s] =>
    rewrite (result_with_state _ _
               (eq_trans (analyze_codebase_result w directory_path s) Hscan))
  end.
  rewrite bool_decide_eq_false_2 by done.
  match goal with
  | |- context [gemini_client.get_suggestions w code_context ?s] =>
    rewrite (result_with_state _ _
               (eq_trans (get_suggestions_result w code_context s st) Hsug))
  end.
  msimpl. rewrite Hsave. reflexivity.
Qed.

(** X16. The successful run: when the checks pass, the scan returns text,
    the service answers with a non-empty text and the report can be saved,
    the run returns 0, and it ends by printing the banner-wrapped answer,
    making the report directory, writing the report, which holds that
    answer as it is, and printing where the report was saved. *)
Theorem successful_run_prints_and_saves
    (directory_path code_context t : pystr) (st : state) :
  let suggestions := gemini_client._format_response t in
  (gemini_client.validate_api_key w st).1 = Ok true ->
  (analyzer.analyze_codebase w directory_path st).1 = Ok code_context ->
  code_context <> [] ->
  generate_content w (py "gemini-2.5-pro")
    (gemini_client._build_analysis_prompt code_context) = Ok (Some t) ->
  t <> [] ->
  path_mkdir w report_dir = Ok () ->
  open_write w (report_path w) (report_of w directory_path suggestions)
  = Ok () ->
  (main.run w directory_path st).1 = Ok 0%Z
  /\ (exists before,
        log (main.run w directory_path st).2
        = before ++ saved_report_log w directory_path suggestions)
  /\ str_in suggestions (report_of w directory_path suggestions) = true.
Proof.
  intros suggestions Hval Hscan Hne Hout Ht Hm Hw.
  assert (Hsug : (gemini_client.get_suggestions w code_context st).1
                 = Ok suggestions).
  { apply get_suggestions_text; [|done|done].
    apply (scan_result_not_blank w directory_path); [|done].
    by rewrite <- (analyze_codebase_result w directory_path st). }
  destruct (run_prints_then_saves directory_path code_context suggestions st
              Hval Hscan Hne Hsug) as [st_before Hrun].
  rewrite (Hrun _ (save_succeeds w _ directory_path _ Hm Hw)).
  split_and!; [done| |apply report_has_suggestions].
  exists (log st_before). cbn [snd log]. unfold saved_report_log.
  by rewrite <- app_assoc.
Qed.

(** X17. An interrupt during the analysis request is not turned into an
    error message: it leaves [get_suggestions], and the run returns 1; the
    last thing it prints is the interruption message, and no file is
    written. Any other exception that is not an [Exception] leaves
    [get_suggestions] in the same way, and then the run as well. *)
Theorem interrupted_analysis_ends_the_run
    (directory_path code_context : pystr) (st : state) (e : exn) :
  (gemini_client.validate_api_key w st).1 = Ok true ->
  (analyzer.analyze_codebase w directory_path st).1 = Ok code_context ->
  code_context <> [] ->
  generate_content w (py "gemini-2.5-pro")
    (gemini_client._build_analysis_prompt code_context) = Raise e ->
  is_Exception e = false ->
  (gemini_client.get_suggestions w code_context st).1 = Raise e
  /\ (main.run w directory_path st).1
     = (if is_KeyboardInterrupt e then Ok 1%Z else Raise e)
  /\ (is_KeyboardInterrupt e = true ->
      last (log (main.run w directory_path st).2)
      = Some (Print interrupted_message))
  /\ files_written (log (main.run w directory_path st).2)
     = files_written (log st).
Proof.
  intros Hval Hscan Hne Hout He.
  assert (Hnb : ~ blank code_context).
  { apply (scan_result_not_blank w directory_path); [|done].
    by rewrite <- (analyze_codebase_result w directory_path st). }
  split; [by apply get_suggestions_interrupted|].
  rewrite analyze_codebase_result in Hscan.
  unfold main.run, main._print_header. munfold. msimpl.
  match goal with
  | |- context [main._validate_environment w ?s] =>
    rewrite (result_with_state _ _ (validate_environment_ok w s
               (eq_trans (validate_api_key_result w s st) Hval)))
  end.
  msimpl.
  match goal with
  | |- context [analyzer.analyze_codebase w directory_path ?s] =>
    rewrite (result_with_state _ _
               (eq_trans (analyze_codebase_result w directory_path s) Hscan))
  end.
  rewrite bool_decide_eq_false_2 by done.
  match goal with
  | |- context [gemini_client.get_suggestions w code_context ?s] =>
    destruct (get_suggestions_interrupted code_context s e Hnb Hout He)
      as [Hr Hf];
    rewrite (result_with_state _ _ Hr)
  end.
  rewrite He, orb_false_r.
  destruct (is_KeyboardInterrupt e); msimpl; unfold interrupted_message.
  - split_and!; [done | intros _; apply last_snoc |].
    effects. rewrite Hf. by chase_log.
  - split_and!; [done | done |]. rewrite Hf. by chase_log.
Qed.

End run_theorems.

(** ** main.py: the entry point *)

Section entry.
Context `{Unicode} (w : World) (inv : cli.Invocation).

(** X18. [main] checks the directory before anything else is set up: for
    a path that does not exist or is not a directory it returns 1 having
    printed the error only; no request is made and nothing is scanned. *)
Theorem main_rejects_what_is_not_a_directory (args_path : pystr)
    (directory_path : Path) (st : state) :
  cli.parse_arguments inv = Ok args_path ->
  cli.path_resolve inv args_path = Ok directory_path ->
  (path_stat w directory_path = None ->
   cli.main w inv st
   = (Ok 1%Z,
      {| analyzer := analyzer st;
         log := log st
                ++ [Print (py "Error: Directory '" ++ args_path
                           ++ py "' does not exist.");
                    Print (py "Absolute path: "
                           ++ Path_str directory_path)] |}))
  /\ (path_stat w directory_path = Some File ->
      cli.main w inv st
      = (Ok 1%Z,
         {| analyzer := analyzer st;
            log := log st
                   ++ [Print (py "Error: '" ++ args_path
                              ++ py "' is not a directory.")] |})).
Proof.
  intros Hparse Hres. unfold cli.main. munfold. rewrite Hparse. msimpl.
  rewrite Hres. msimpl.
  split; intros ->; msimpl; [|done]. by rewrite <- app_assoc.
Qed.

(** X19. For a directory, once the assistant is built, [main] is the run
    of a fresh assistant on the resolved path written as a string: same
    exit code or same exception, same effects, counters starting from
    zero. *)
Theorem main_runs_on_the_resolved_path (args_path : pystr)
    (directory_path : Path) (entries : list (pystr * node)) (st : state) :
  cli.parse_arguments inv = Ok args_path ->
  cli.path_resolve inv args_path = Ok directory_path ->
  path_stat w directory_path = Some (Dir entries) ->
  cli.genai_Client inv = Ok () ->
  cli.main w inv st
  = main.run w (Path_str directory_path)
      {| analyzer := analyzer.CodeAnalyzer_init; log := log st |}.
Proof.
  intros Hparse Hres Hstat Hinit. unfold cli.main, cli.CodingAssistant_init.
  munfold. rewrite Hparse. msimpl. rewrite Hres. msimpl.
  rewrite Hstat, Hinit. msimpl.
  destruct (run_effects w (Path_str directory_path)
              {| analyzer := analyzer.CodeAnalyzer_init; log := log st |})
    as [[Hc|[Hc|(e & Hc & Hu)]] _]; rewrite (result_with_state _ _ Hc);
    [done | done |].
  by rewrite caught_or_uncaught, Hu.
Qed.

Lemma main_startup_failure_aux (e : exn) (st : state) :
  startup w inv = Raise e ->
  (cli.main w inv st).1
  = (if is_KeyboardInterrupt e then Ok 0%Z
     else if is_Exception e then Ok 1%Z else Raise e)
  /\ log (cli.main w inv st).2
     = log st
       ++ (if is_KeyboardInterrupt e
           then [Print (nl ++ nl ++ py "Goodbye!")]
           else if is_Exception e
                then [Print (py "Fatal error: " ++ exn_str e)]
                else []).
Proof.
  unfold startup, cli.main, cli.CodingAssistant_init. munfold.
  destruct (cli.parse_arguments inv) as [args_path|e1]; msimpl.
  - destruct (cli.path_resolve inv args_path) as [directory_path|e2]; msimpl.
    + destruct (path_stat w directory_path) as [[|entries]|]; [done| |done].
      destruct (cli.genai_Client inv) as [[]|e3]; [done|].
      intros [= ->]. msimpl.
      destruct (is_KeyboardInterrupt e), (is_Exception e);
        cbn [orb]; msimpl; rewrite ?app_nil_r; done.
    + intros [= ->].
      destruct (is_KeyboardInterrupt e), (is_Exception e);
        cbn [orb]; msimpl; rewrite ?app_nil_r; done.
  - intros [= ->].
    destruct (is_KeyboardInterrupt e), (is_Exception e);
      cbn [orb]; msimpl; rewrite ?app_nil_r; done.
Qed.


(** X21. [main] returns 0 or 1, or it raises an exception that is neither
    a [KeyboardInterrupt] nor an [Exception]. It returns 0 only when the
    start was interrupted or the run itself returned 0, and it raises only
    what the start or the run raised. *)
Theorem main_outcomes (st : state) :
  ((cli.main w inv st).1 = Ok 0%Z \/ (cli.main w inv st).1 = Ok 1%Z
   \/ exists e, (cli.main w inv st).1 = Raise e /\ uncaught e = true)
  /\ ((cli.main w inv st).1 = Ok 0%Z ->
      (exists e, startup w inv = Raise e /\ is_KeyboardInterrupt e = true)
      \/ (exists args_path directory_path,
            startup w inv = Ok (args_path, directory_path)
            /\ (main.run w (Path_str directory_path)
                  {| analyzer := analyzer.CodeAnalyzer_init;
                     log := log st |}).1 = Ok 0%Z))
  /\ (forall e,
        (cli.main w inv st).1 = Raise e ->
        startup w inv = Raise e
        \/ (exists args_path directory_path,
              startup w inv = Ok (args_path, directory_path)
              /\ (main.run w (Path_str directory_path)
                    {| analyzer := analyzer.CodeAnalyzer_init;
                       log := log st |}).1 = Raise e)).
Proof.
  destruct (startup w inv) as [[args_path directory_path]|e] eqn:Hs.
  - unfold startup in Hs. unfold cli.main, cli.CodingAssistant_init. munfold.
    destruct (cli.parse_arguments inv) as [a|e1]; [|done]. msimpl.
    destruct (cli.path_resolve inv a) as [p|e2]; [|done]. msimpl.
    destruct (path_stat w p) as [[|entries]|]; msimpl;
      [split_and!; [auto|done|done]| |split_and!; [auto|done|done]].
    destruct (cli.genai_Client inv) as [[]|e3]; [|done]. msimpl.
    injection Hs as <- <-.
    destruct (run_effects w (Path_str p)
                {| analyzer := analyzer.CodeAnalyzer_init; log := log st |})
      as [[Hc|[Hc|(e & Hc & Hu)]] _]; rewrite (result_with_state _ _ Hc);
      [| |rewrite caught_or_uncaught, Hu]; cbn [fst negb].
    + split_and!; [auto| |done]. intros _. right. by exists a, p.
    + split_and!; [auto|done|done].
    + split_and!; [eauto 10|done|]. intros e' [= <-]. right. by exists a, p.
  - destruct (main_startup_failure_aux e st Hs) as [-> _].
    destruct (is_KeyboardInterrupt e) eqn:Hk;
      [|destruct (is_Exception e) eqn:He].
    + split_and!; [auto| |done]. intros _. left. by exists e.
    + split_and!; [auto|done|done].
    + split_and!; [|done|].
      * right. right. exists e. split; [done|].
        unfold uncaught. by rewrite Hk, He.
      * intros e' [= <-]. by left.
Qed.

End entry.

(** ** From [main] to the analyzer: the path as a string and back *)

Lemma py_slash : py "/" = [47].
Proof. by vm_compute. Qed.

Lemma str_split_cons_sep (c : N) (s : pystr) :
  str_split c (c :: s) = [] :: str_split c s.
Proof. cbn [str_split]. by rewrite N.eqb_refl. Qed.

Lemma str_split_not_nil (c : N) (s : pystr) : str_split c s <> [].
Proof.
  induction s as [|x s IH]; cbn [str_split]; [done|].
  destruct (x =? c); [done|]. by destruct (str_split c s).
Qed.

Lemma str_split_app (c : N) (a b : pystr) :
  c ∉ a -> str_split c (a ++ c :: b) = a :: str_split c b.
Proof.
  induction a as [|x a IH]; intros Ha; [apply str_split_cons_sep|].
  apply not_elem_of_cons in Ha as [Hx Ha].
  cbn [app str_split]. rewrite (IH Ha).
  destruct (N.eqb_spec x c) as [->|_]; done.
Qed.

Lemma str_split_no_sep (c : N) (a : pystr) :
  c ∉ a -> str_split c a = [a].
Proof.
  induction a as [|x a IH]; intros Ha; [done|].
  apply not_elem_of_cons in Ha as [Hx Ha].
  cbn [str_split]. rewrite (IH Ha).
  destruct (N.eqb_spec x c) as [->|_]; done.
Qed.

Lemma str_split_join (ps : list pystr) :
  ps <> [] -> Forall (fun c => 47 ∉ c) ps ->
  str_split 47 (str_join [47] ps) = ps.
Proof.
  induction ps as [|c ps IH]; intros Hne Hall; [done|].
  apply Forall_cons in Hall as [Hc Hall].
  destruct ps as [|c' ps]; [by apply str_split_no_sep|].
  change (str_join [47] (c :: c' :: ps))
    with (c ++ 47 :: str_join [47] (c' :: ps)).
  rewrite (str_split_app _ _ _ Hc). by rewrite IH.
Qed.

Lemma filter_components (ps : list pystr) :
  Forall component ps ->
  filter (fun p => p <> [] /\ p <> py ".") ps = ps.
Proof.
  induction 1 as [|c ps (Hne & Hdot & _) _ IH]; [done|].
  rewrite filter_cons_True by done. f_equal. exact IH.
Qed.

Lemma Path_round_trip (p : Path) :
  Forall component (parts p) -> Path_of_str (Path_str p) = p.
Proof.
  destruct p as [a ps]. cbn [parts]. intros Hall.
  assert (Hsep : Forall (fun c => 47 ∉ c) ps).
  { eapply Forall_impl; [exact Hall|]. by intros c (_ & _ & Hc). }
  unfold Path_of_str, Path_str. cbn [absolute parts]. rewrite py_slash.
  destruct a.
  - cbn [app startswith]. rewrite N.eqb_refl. cbn [andb]. f_equal.
    rewrite str_split_cons_sep, filter_cons_False by (intros [? _]; done).
    destruct ps as [|c ps]; [done|].
    rewrite str_split_join by done. by apply filter_components.
  - destruct ps as [|c ps]; [by vm_compute|].
    rewrite str_split_join by done. f_equal; [|by apply filter_components].
    apply Forall_cons in Hall as [(Hne & _ & Hc) _].
    destruct c as [|x c]; [done|].
    apply not_elem_of_cons in Hc as [Hx _].
    destruct (str_join_cons [47] (x :: c) ps) as [tl ->].
    cbn [app startswith]. by destruct (N.eqb_spec 47 x).
Qed.

Section handover.
Context `{Unicode} (w : World).

(** X22. [main] passes the resolved directory to the run as a string and
    the analyzer turns the string into a path again: this gives the same
    path back, so for a directory the analyzer's own existence checks
    pass and the scan is the loop over the walk of that directory. *)
Theorem resolved_directory_is_the_one_scanned (directory_path : Path)
    (entries : list (pystr * node)) (st : state) :
  resolved directory_path ->
  path_stat w directory_path = Some (Dir entries) ->
  Path_of_str (Path_str directory_path) = directory_path
  /\ (analyzer.analyze_codebase w (Path_str directory_path) st).1
     = match loop_result w [] (analyzer.walk directory_path (Dir entries)) with
       | Ok aggregated_parts => Ok (str_join nl aggregated_parts)
       | Raise e => Raise e
       end.
Proof.
  intros [_ Hall] Hstat.
  pose proof (Path_round_trip _ Hall) as Hrt. split; [done|].
  rewrite analyze_codebase_result. unfold scan_result.
  rewrite Hrt, Hstat. done.
Qed.

End handover.

(** ** The properties above on the sample environments *)

Lemma find_source_files_exact_witness :
  let root := Path_of_str (py "proj") in
  let tree := Dir [(py "a.py", File);
                   (py "node_modules", Dir [(py "x.js", File)])] in
  path_stat world_modules root = Some tree
  /\ Path_div root (py "a.py")
     ∈ analyzer._find_source_files world_modules root.
Proof.
  intros root tree.
  assert (Hs : path_stat world_modules root = Some tree) by (by vm_compute).
  split; [exact Hs|].
  apply (proj2 (find_source_files_exact world_modules root tree
                  (Path_div root (py "a.py")) Hs)).
  exists [], (py "a.py"). split; [by vm_compute|]. split.
  { apply file_here. constructor. }
  split; [constructor|].
  apply (bool_decide_unpack _). by vm_compute.
Defined.

Lemma found_files_have_a_language_witness :
  let root := Path_of_str (py "proj") in
  let p := Path_div root (py "a.py") in
  p ∈ analyzer._find_source_files world_proj root
  /\ analyzer._get_language_from_extension (Path_suffix p) <> py "Unknown".
Proof.
  intros root p.
  assert (Hp : p ∈ analyzer._find_source_files world_proj root)
    by (apply (bool_decide_unpack _); by vm_compute).
  split; [exact Hp|].
  exact (proj2 (found_files_have_a_language world_proj root p Hp)).
Defined.

Lemma counters_count_included_files_witness :
  let root := Path_of_str (py "proj") in
  let fs := [Path_div root (py "a.py"); Path_div root (py "b.py")] in
  Forall (readable world_proj) fs /\ Forall named fs
  /\ analyzer (analyzer._aggregate_file_contents world_proj fs st0).2
     = add_counters (analyzer st0)
         (N.of_nat (length (included_files world_proj fs)))
         (included_bytes world_proj fs).
Proof.
  intros root fs.
  assert (Hr : Forall (readable world_proj) fs) by (by repeat constructor).
  assert (Hn : Forall named fs) by (repeat constructor; by vm_compute).
  split; [exact Hr | split; [exact Hn|]].
  exact (proj1 (counters_count_included_files world_proj fs st0 Hr Hn)).
Defined.

Lemma scan_counters_accumulate_witness :
  let files := analyzer._find_source_files world_proj
                 (Path_of_str (py "proj")) in
  path_stat world_proj (Path_of_str (py "proj"))
  = Some (Dir [(py "a.py", File)])
  /\ Forall (readable world_proj) files
  /\ analyzer (analyzer.analyze_codebase world_proj (py "proj")
       (analyzer.analyze_codebase world_proj (py "proj") st0).2).2
     = add_counters (analyzer st0)
         (2 * N.of_nat (length (included_files world_proj files)))
         (2 * included_bytes world_proj files).
Proof.
  intros files.
  assert (Hs : path_stat world_proj (Path_of_str (py "proj"))
               = Some (Dir [(py "a.py", File)])) by (by vm_compute).
  assert (Hr : Forall (readable world_proj) files)
    by (vm_compute; by repeat constructor).
  split; [exact Hs | split; [exact Hr|]].
  exact (proj2 (scan_counters_accumulate world_proj (py "proj") _ st0 Hs Hr)).
Defined.

Lemma unreadable_or_empty_file_is_skipped_witness :
  let root := Path_of_str (py "proj") in
  let f := Path_div root (py "secret.py") in
  let e := Exn PermissionError (py "[Errno 13] Permission denied") in
  (open_read world_guarded f = Raise e /\ is_read_error e = true)
  /\ (analyzer._aggregate_file_contents world_guarded
        ([Path_div root (py "a.py")] ++ f :: [Path_div root (py "b.py")])
        st0).1
     = (analyzer._aggregate_file_contents world_guarded
          ([Path_div root (py "a.py")] ++ [Path_div root (py "b.py")])
          st0).1.
Proof.
  intros root f e.
  assert (Hf : open_read world_guarded f = Raise e /\ is_read_error e = true)
    by (split; by vm_compute).
  split; [exact Hf|].
  exact (proj1 (unreadable_or_empty_file_is_skipped world_guarded
                  [Path_div root (py "a.py")] [Path_div root (py "b.py")]
                  f st0 (or_intror (ex_intro _ e Hf)))).
Defined.

Lemma other_read_error_aborts_witness :
  let root := Path_of_str (py "proj") in
  let f := Path_div root (py "gone.py") in
  let before := [Path_div root (py "a.py")] in
  let e := Exn FileNotFoundError (py "[Errno 2] No such file or directory") in
  Forall (readable world_guarded) before /\ Forall named before
  /\ open_read world_guarded f = Raise e /\ is_read_error e = false
  /\ (analyzer._aggregate_file_contents world_guarded
        (before ++ f :: [Path_div root (py "b.py")]) st0).1 = Raise e.
Proof.
  intros root f before e.
  assert (Hr : Forall (readable world_guarded) before)
    by (vm_compute; by repeat constructor).
  assert (Hn : Forall named before) by (repeat constructor; by vm_compute).
  assert (Hf : open_read world_guarded f = Raise e) by (by vm_compute).
  assert (He : is_read_error e = false) by reflexivity.
  repeat (split; [assumption|]).
  exact (proj1 (other_read_error_aborts world_guarded before
                  [Path_div root (py "b.py")] f e st0 Hr Hn Hf He)).
Defined.

Lemma stored_key_is_stripped_witness :
  let c := {| config.gemini_api_key := py "key" |} in
  config.Config_init (Some (py "  key ")) = Ok c
  /\ strip (config.api_key c) = config.api_key c.
Proof.
  intros c.
  assert (Hc : config.Config_init (Some (py "  key ")) = Ok c)
    by (by vm_compute).
  split; [exact Hc|].
  exact (proj1 (proj2 (stored_key_is_stripped _ c Hc))).
Defined.

Lemma format_response_strips_witness :
  blank (py "  ") /\ blank (py " ")
  /\ gemini_client._format_response (py "  " ++ py "Looks fine." ++ py " ")
     = response_banner ++ strip (py "Looks fine.") ++ response_footer.
Proof.
  assert (Ha : blank (py "  ")) by (vm_compute; repeat constructor).
  assert (Hb : blank (py " ")) by (vm_compute; repeat constructor).
  split; [exact Ha | split; [exact Hb|]].
  exact (format_response_strips (py "  ") (py "Looks fine.") (py " ") Ha Hb).
Defined.

Lemma error_message_shape_witness :
  let e := Exn OtherException (py "API_KEY quota exceeded") in
  str_in (py "API_KEY") (str_upper (exn_str e)) = true
  /\ gemini_client.error_message e
     = error_line e ++ gemini_client.api_key_hint.
Proof.
  intros e.
  assert (Hk : str_in (py "API_KEY") (str_upper (exn_str e)) = true)
    by (by vm_compute).
  split; [exact Hk|].
  exact (proj1 (proj2 (proj2 (error_message_shape e))) Hk).
Defined.

Lemma validate_api_key_spec_witness :
  let outcome := generate_content world_quota (py "gemini-2.5-flash")
                   gemini_client.test_prompt in
  (forall e, outcome = Raise e -> is_Exception e = true)
  /\ (gemini_client.validate_api_key world_quota st0).1
     = Ok (has_text outcome).
Proof.
  intros outcome.
  assert (He : forall e, outcome = Raise e -> is_Exception e = true).
  { intros e H. vm_compute in H. discriminate. }
  split; [exact He|].
  exact (proj2 (validate_api_key_spec world_quota st0) He).
Defined.

Lemma get_suggestions_makes_one_request_witness :
  ~ blank (py "x = 1")
  /\ requests_made
       (log (gemini_client.get_suggestions world_quota (py "x = 1") st0).2)
     = requests_made (log st0)
       ++ [(py "gemini-2.5-pro", py "Codebase: " ++ py "x = 1")].
Proof.
  assert (Hb : ~ blank (py "x = 1")).
  { intros Hb. vm_compute in Hb. apply Forall_inv in Hb. discriminate. }
  split; [exact Hb|].
  exact (proj1 (get_suggestions_makes_one_request world_quota (py "x = 1")
                  st0 Hb)).
Defined.

Lemma failed_validation_stops_the_run_witness :
  (gemini_client.validate_api_key world_proj st0).1 = Ok false
  /\ main.run world_proj (py "proj") st0
     = (Ok 1%Z,
        {| analyzer := analyzer st0;
           log := log st0 ++ failed_validation_log |}).
Proof.
  assert (Hv : (gemini_client.validate_api_key world_proj st0).1 = Ok false)
    by (by vm_compute).
  split; [exact Hv|].
  exact (failed_validation_stops_the_run world_proj (py "proj") st0 Hv).
Defined.

Lemma failed_scan_ends_the_run_witness :
  let e := Exn FileNotFoundError
             (py "Directory '" ++ py "missing" ++ py "' does not exist") in
  (gemini_client.validate_api_key world_quota st0).1 = Ok true
  /\ (analyzer.analyze_codebase world_quota (py "missing") st0).1 = Raise e
  /\ (main.run world_quota (py "missing") st0).1 = Ok 1%Z
  /\ last (log (main.run world_quota (py "missing") st0).2)
     = Some (Print (handler_message e)).
Proof.
  intros e.
  assert (Hv : (gemini_client.validate_api_key world_quota st0).1 = Ok true)
    by (by vm_compute).
  assert (Ha : (analyzer.analyze_codebase world_quota (py "missing") st0).1
               = Raise e) by (by vm_compute).
  split; [exact Hv | split; [exact Ha|]].
  destruct (failed_scan_ends_the_run world_quota (py "missing") st0 e Hv Ha)
    as (Hrun & Hlast & _).
  split; [exact Hrun | exact (Hlast eq_refl)].
Defined.

Lemma empty_scan_ends_the_run_witness :
  (gemini_client.validate_api_key world_empty st0).1 = Ok true
  /\ (analyzer.analyze_codebase world_empty (py "proj") st0).1 = Ok []
  /\ (main.run world_empty (py "proj") st0).1 = Ok 1%Z
  /\ last (log (main.run world_empty (py "proj") st0).2)
     = Some (Print no_code_message).
Proof.
  assert (Hv : (gemini_client.validate_api_key world_empty st0).1 = Ok true)
    by (by vm_compute).
  assert (Ha : (analyzer.analyze_codebase world_empty (py "proj") st0).1
               = Ok []) by (by vm_compute).
  split; [exact Hv | split; [exact Ha|]].
  destruct (empty_scan_ends_the_run world_empty (py "proj") st0 Hv Ha)
    as (Hrun & Hlast & _).
  split; [exact Hrun | exact Hlast].
Defined.

Lemma successful_run_prints_and_saves_witness :
  let suggestions := gemini_client._format_response sample_answer in
  (gemini_client.validate_api_key world_answering st0).1 = Ok true
  /\ (analyzer.analyze_codebase world_answering (py "proj") st0).1
     = Ok proj_context
  /\ proj_context <> []
  /\ generate_content world_answering (py "gemini-2.5-pro")
       (gemini_client._build_analysis_prompt proj_context)
     = Ok (Some sample_answer)
  /\ sample_answer <> []
  /\ path_mkdir world_answering report_dir = Ok ()
  /\ open_write world_answering (report_path world_answering)
       (report_of world_answering (py "proj") suggestions) = Ok ()
  /\ (main.run world_answering (py "proj") st0).1 = Ok 0%Z.
Proof.
  intros suggestions.
  assert (H1 : (gemini_client.validate_api_key world_answering st0).1
               = Ok true) by (by vm_compute).
  assert (H2 : (analyzer.analyze_codebase world_answering (py "proj") st0).1
               = Ok proj_context) by (by vm_compute).
  assert (H3 : proj_context <> []) by (by vm_compute).
  assert (H4 : generate_content world_answering (py "gemini-2.5-pro")
                 (gemini_client._build_analysis_prompt proj_context)
               = Ok (Some sample_answer)) by (by vm_compute).
  assert (H5 : sample_answer <> []) by (by vm_compute).
  assert (H6 : path_mkdir world_answering report_dir = Ok ()) by reflexivity.
  assert (H7 : open_write world_answering (report_path world_answering)
                 (report_of world_answering (py "proj") suggestions) = Ok ())
    by reflexivity.
  repeat (split; [assumption|]).
  exact (proj1 (successful_run_prints_and_saves world_answering (py "proj")
                  proj_context sample_answer st0 H1 H2 H3 H4 H5 H6 H7)).
Defined.

Lemma interrupted_analysis_ends_the_run_witness :
  let e := Exn KeyboardInterrupt [] in
  (gemini_client.validate_api_key world_interrupted st0).1 = Ok true
  /\ (analyzer.analyze_codebase world_interrupted (py "proj") st0).1
     = Ok proj_context
  /\ proj_context <> []
  /\ generate_content world_interrupted (py "gemini-2.5-pro")
       (gemini_client._build_analysis_prompt proj_context) = Raise e
  /\ is_Exception e = false
  /\ (main.run world_interrupted (py "proj") st0).1 = Ok 1%Z
  /\ last (log (main.run world_interrupted (py "proj") st0).2)
     = Some (Print interrupted_message).
Proof.
  intros e.
  assert (H1 : (gemini_client.validate_api_key world_interrupted st0).1
               = Ok true) by (by vm_compute).
  assert (H2 : (analyzer.analyze_codebase world_interrupted (py "proj")
                  st0).1 = Ok proj_context) by (by vm_compute).
  assert (H3 : proj_context <> []) by (by vm_compute).
  assert (H4 : generate_content world_interrupted (py "gemini-2.5-pro")
                 (gemini_client._build_analysis_prompt proj_context)
               = Raise e) by (by vm_compute).
  assert (H5 : is_Exception e = false) by reflexivity.
  repeat (split; [assumption|]).
  destruct (interrupted_analysis_ends_the_run world_interrupted (py "proj")
              proj_context st0 e H1 H2 H3 H4 H5) as (_ & Hrun & Hlast & _).
  split; [exact Hrun | exact (Hlast eq_refl)].
Defined.

Lemma main_rejects_what_is_not_a_directory_witness :
  let inv := sample_invocation (py "nowhere") (Ok ()) in
  let directory_path := Path_of_str (py "/srv/nowhere") in
  cli.parse_arguments inv = Ok (py "nowhere")
  /\ cli.path_resolve inv (py "nowhere") = Ok directory_path
  /\ path_stat world_abs directory_path = None
  /\ cli.main world_abs inv st0
     = (Ok 1%Z,
        {| analyzer := analyzer st0;
           log := log st0
                  ++ [Print (py "Error: Directory '" ++ py "nowhere"
                             ++ py "' does not exist.");
                      Print (py "Absolute path: "
                             ++ Path_str directory_path)] |}).
Proof.
  intros inv directory_path.
  assert (H1 : cli.parse_arguments inv = Ok (py "nowhere")) by reflexivity.
  assert (H2 : cli.path_resolve inv (py "nowhere") = Ok directory_path)
    by (by vm_compute).
  assert (H3 : path_stat world_abs directory_path = None) by (by vm_compute).
  repeat (split; [assumption|]).
  exact (proj1 (main_rejects_what_is_not_a_directory world_abs inv
                  (py "nowhere") directory_path st0 H1 H2) H3).
Defined.

Lemma main_runs_on_the_resolved_path_witness :
  let inv := sample_invocation (py "proj") (Ok ()) in
  let directory_path := Path_of_str (py "/srv/proj") in
  cli.parse_arguments inv = Ok (py "proj")
  /\ cli.path_resolve inv (py "proj") = Ok directory_path
  /\ path_stat world_abs directory_path = Some (Dir [(py "a.py", File)])
  /\ cli.genai_Client inv = Ok ()
  /\ cli.main world_abs inv st0
     = main.run world_abs (Path_str directory_path)
         {| analyzer := analyzer.CodeAnalyzer_init; log := log st0 |}.
Proof.
  intros inv directory_path.
  assert (H1 : cli.parse_arguments inv = Ok (py "proj")) by reflexivity.
  assert (H2 : cli.path_resolve inv (py "proj") = Ok directory_path)
    by (by vm_compute).
  assert (H3 : path_stat world_abs directory_path
               = Some (Dir [(py "a.py", File)])) by (by vm_compute).
  assert (H4 : cli.genai_Client inv = Ok ()) by reflexivity.
  repeat (split; [assumption|]).
  exact (main_runs_on_the_resolved_path world_abs inv (py "proj")
           directory_path _ st0 H1 H2 H3 H4).
Defined.


Lemma run_outcomes_and_effects_witness :
  let e := Exn SystemExit (py "1") in
  (gemini_client.validate_api_key world_exiting st0).1 = Raise e
  /\ uncaught e = true
  /\ (main.run world_exiting (py "proj") st0).1 = Raise e.
Proof.
  intros e.
  assert (Hv : (gemini_client.validate_api_key world_exiting st0).1
               = Raise e) by (by vm_compute).
  assert (Hu : uncaught e = true) by reflexivity.
  split; [exact Hv | split; [exact Hu|]].
  exact (proj1 (proj2 (run_outcomes_and_effects world_exiting (py "proj")
                         st0)) e Hv Hu).
Defined.

Lemma main_outcomes_witness :
  let e := Exn SystemExit (py "2") in
  (cli.main world_abs invocation_without_path st0).1 = Raise e
  /\ startup world_abs invocation_without_path = Raise e.
Proof.
  intros e.
  assert (Hm : (cli.main world_abs invocation_without_path st0).1 = Raise e)
    by (by vm_compute).
  split; [exact Hm|].
  destruct (proj2 (proj2 (main_outcomes world_abs invocation_without_path
                            st0)) e Hm) as [Hs|(a & p & Hs & _)].
  - exact Hs.
  - vm_compute in Hs. discriminate.
Defined.

Lemma resolved_directory_is_the_one_scanned_witness :
  let directory_path := Path_of_str (py "/srv/proj") in
  resolved directory_path
  /\ path_stat world_abs directory_path = Some (Dir [(py "a.py", File)])
  /\ Path_of_str (Path_str directory_path) = directory_path.
Proof.
  intros directory_path.
  assert (Hr : resolved directory_path).
  { unfold resolved, component. apply (bool_decide_unpack _). by vm_compute. }
  assert (Hs : path_stat world_abs directory_path
               = Some (Dir [(py "a.py", File)])) by (by vm_compute).
  split; [exact Hr | split; [exact Hs|]].
  exact (proj1 (resolved_directory_is_the_one_scanned world_abs
                  directory_path _ st0 Hr Hs)).
Defined.
